(** * Placement arithmetic of the autofill suggestion popup

    A shallow embedding of [atom/browser/ui/autofill_popup.cc]: the two
    free placement functions of the anonymous namespace, and the methods
    of [AutofillPopup] that compute the desired size, the row geometry
    and the row under a pointer position.

    C++ [int] is a 32-bit two's-complement integer, [size_t] a 64-bit
    unsigned one.  Both are carried by [Z]; every arithmetic operation
    of the source is written with its wrap-around, so a statement about
    the mathematical value of a result states the range it needs. *)

From Stdlib Require Import ZArith List Lia Bool.
Import ListNotations.
Local Open Scope Z_scope.

(** ** Machine integers *)

Module Int32.

Definition min_int : Z := -2147483648.
Definition max_int : Z := 2147483647.
Definition modulus : Z := 4294967296.

Definition in_range (z : Z) : Prop := min_int <= z <= max_int.

(** Reduction of a mathematical integer to its [int] representative. *)
Definition wrap (z : Z) : Z := (z - min_int) mod modulus + min_int.

Definition add (a b : Z) : Z := wrap (a + b).
Definition sub (a b : Z) : Z := wrap (a - b).
Definition mul (a b : Z) : Z := wrap (a * b).
Definition neg (a : Z) : Z := wrap (- a).

End Int32.

Module SizeT.

Definition modulus : Z := 18446744073709551616.

Definition wrap (z : Z) : Z := z mod modulus.

(** Integral conversion [int -> size_t] (sign extension, then
    reinterpretation as unsigned). *)
Definition of_int (i : Z) : Z := wrap i.

(** Narrowing conversion [size_t -> int]. *)
Definition to_int (u : Z) : Z := Int32.wrap u.

Definition add (a b : Z) : Z := wrap (a + b).
Definition sub (a b : Z) : Z := wrap (a - b).
Definition mul (a b : Z) : Z := wrap (a * b).

End SizeT.

(** ** Geometry and display types

    [gfx::Point], [gfx::Size], [gfx::Vector2d], [gfx::Rect] and
    [display::Display] belong to the toolkit, not to this file.  They are
    carried as records of [int]s with the accessors the source calls;
    [MakeRect] is the constructor of a rectangle from four [int]s, which
    never keeps a negative extent. *)

Module gfx.

Record Point := mkPoint { Point_x : Z; Point_y : Z }.
Record Size := mkSize { Size_width : Z; Size_height : Z }.
Record Vector2d := mkVector2d { Vector2d_x : Z; Vector2d_y : Z }.

Record Rect := mkRect { x : Z; y : Z; width : Z; height : Z }.

Definition right (r : Rect) : Z := Int32.add (x r) (width r).
Definition bottom (r : Rect) : Z := Int32.add (y r) (height r).
Definition origin (r : Rect) : Point := mkPoint (x r) (y r).
Definition size (r : Rect) : Size := mkSize (width r) (height r).

(** [gfx::Rect(x, y, width, height)]: an extent that would carry the
    far edge past [INT_MAX] is cut there, and a negative extent is
    stored as 0. *)
Definition AddWouldOverflow (a b : Z) : bool :=
  (a >? 0) && (b >? 0) && (Int32.max_int - a <? b).

Definition GetClampedValue (origin extent : Z) : Z :=
  if AddWouldOverflow origin extent then Int32.max_int - origin else extent.

Definition MakeRect (x y width height : Z) : Rect :=
  mkRect x y (Z.max 0 (GetClampedValue x width))
             (Z.max 0 (GetClampedValue y height)).

(** [gfx::Rect(origin, size)]. *)
Definition RectOf (o : Point) (s : Size) : Rect :=
  mkRect (Point_x o) (Point_y o) (Size_width s) (Size_height s).

(** [point + vector]. *)
Definition Point_plus (p : Point) (v : Vector2d) : Point :=
  mkPoint (Int32.add (Point_x p) (Vector2d_x v))
          (Int32.add (Point_y p) (Vector2d_y v)).

(** The fields of a rectangle are [int]s and its extent is never
    negative. *)
Definition Rect_ok (r : Rect) : Prop :=
  Int32.in_range (x r) /\ Int32.in_range (y r) /\
  0 <= width r <= Int32.max_int /\ 0 <= height r <= Int32.max_int.

End gfx.

Module display.

(** A display as the source reads it: [bounds()] and
    [GetSizeInPixel()]. *)
Record Display := mkDisplay {
  bounds : gfx.Rect;
  GetSizeInPixel : gfx.Size
}.

End display.

(** ** The placement functions of the anonymous namespace *)

Definition CalculatePopupXAndWidth
    (left_display right_display : display.Display)
    (popup_required_width : Z)
    (element_bounds : gfx.Rect)
    (is_rtl : bool) : Z * Z :=
  let leftmost_display_x := gfx.x (display.bounds left_display) in
  let rightmost_display_x :=
    Int32.add (gfx.Size_width (display.GetSizeInPixel right_display))
              (gfx.x (display.bounds right_display)) in
  let right_growth_start :=
    Z.max leftmost_display_x
          (Z.min rightmost_display_x (gfx.x element_bounds)) in
  let left_growth_end :=
    Z.max leftmost_display_x
          (Z.min rightmost_display_x (gfx.right element_bounds)) in
  let right_available := Int32.sub rightmost_display_x right_growth_start in
  let left_available := Int32.sub left_growth_end leftmost_display_x in
  let popup_width :=
    Z.min popup_required_width (Z.max right_available left_available) in
  let grow_right := (right_growth_start, popup_width) in
  let grow_left := (Int32.sub left_growth_end popup_width, popup_width) in
  if is_rtl then
    if (left_available >=? popup_width) || (left_available >=? right_available)
    then grow_left
    else grow_right
  else
    if (right_available >=? popup_width) || (right_available >=? left_available)
    then grow_right
    else grow_left.

Definition CalculatePopupYAndHeight
    (top_display bottom_display : display.Display)
    (popup_required_height : Z)
    (element_bounds : gfx.Rect) : Z * Z :=
  let topmost_display_y := gfx.y (display.bounds top_display) in
  let bottommost_display_y :=
    Int32.add (gfx.Size_height (display.GetSizeInPixel bottom_display))
              (gfx.y (display.bounds bottom_display)) in
  let top_growth_end :=
    Z.max topmost_display_y
          (Z.min bottommost_display_y (gfx.y element_bounds)) in
  let bottom_growth_start :=
    Z.max topmost_display_y
          (Z.min bottommost_display_y (gfx.bottom element_bounds)) in
  let top_available := Int32.sub bottom_growth_start topmost_display_y in
  let bottom_available := Int32.sub bottommost_display_y top_growth_end in
  if (bottom_available >=? popup_required_height)
     || (bottom_available >=? top_available)
  then (bottom_growth_start, popup_required_height)
  else (Int32.sub top_growth_end popup_required_height, popup_required_height).

(** *** The locals of the two functions, by name

    The claims speak of the clamped anchor edges and of the space
    available on either side; these are the locals of the source, given
    here as functions of the same arguments. *)

Module Horizontal.

Definition leftmost_display_x (left_display : display.Display) : Z :=
  gfx.x (display.bounds left_display).

Definition rightmost_display_x (right_display : display.Display) : Z :=
  Int32.add (gfx.Size_width (display.GetSizeInPixel right_display))
            (gfx.x (display.bounds right_display)).

Definition right_growth_start (ld rd : display.Display) (e : gfx.Rect) : Z :=
  Z.max (leftmost_display_x ld) (Z.min (rightmost_display_x rd) (gfx.x e)).

Definition left_growth_end (ld rd : display.Display) (e : gfx.Rect) : Z :=
  Z.max (leftmost_display_x ld) (Z.min (rightmost_display_x rd) (gfx.right e)).

Definition right_available (ld rd : display.Display) (e : gfx.Rect) : Z :=
  Int32.sub (rightmost_display_x rd) (right_growth_start ld rd e).

Definition left_available (ld rd : display.Display) (e : gfx.Rect) : Z :=
  Int32.sub (left_growth_end ld rd e) (leftmost_display_x ld).

Definition popup_width (ld rd : display.Display) (required : Z)
    (e : gfx.Rect) : Z :=
  Z.min required (Z.max (right_available ld rd e) (left_available ld rd e)).

Definition grow_right (ld rd : display.Display) (required : Z)
    (e : gfx.Rect) : Z * Z :=
  (right_growth_start ld rd e, popup_width ld rd required e).

Definition grow_left (ld rd : display.Display) (required : Z)
    (e : gfx.Rect) : Z * Z :=
  (Int32.sub (left_growth_end ld rd e) (popup_width ld rd required e),
   popup_width ld rd required e).

(** The tie-break policy in the words of the specification: in
    left-to-right mode grow left exactly when the space on the right is
    smaller than required and smaller than the space on the left, and
    grow right otherwise; mirrored in right-to-left mode. *)
Definition policy (ld rd : display.Display) (required : Z)
    (e : gfx.Rect) (is_rtl : bool) : Z * Z :=
  if is_rtl then
    if (left_available ld rd e <? required)
       && (left_available ld rd e <? right_available ld rd e)
    then grow_right ld rd required e
    else grow_left ld rd required e
  else
    if (right_available ld rd e <? required)
       && (right_available ld rd e <? left_available ld rd e)
    then grow_left ld rd required e
    else grow_right ld rd required e.

End Horizontal.

Module Vertical.

Definition topmost_display_y (top_display : display.Display) : Z :=
  gfx.y (display.bounds top_display).

Definition bottommost_display_y (bottom_display : display.Display) : Z :=
  Int32.add (gfx.Size_height (display.GetSizeInPixel bottom_display))
            (gfx.y (display.bounds bottom_display)).

Definition top_growth_end (td bd : display.Display) (e : gfx.Rect) : Z :=
  Z.max (topmost_display_y td) (Z.min (bottommost_display_y bd) (gfx.y e)).

Definition bottom_growth_start (td bd : display.Display) (e : gfx.Rect) : Z :=
  Z.max (topmost_display_y td) (Z.min (bottommost_display_y bd) (gfx.bottom e)).

Definition top_available (td bd : display.Display) (e : gfx.Rect) : Z :=
  Int32.sub (bottom_growth_start td bd e) (topmost_display_y td).

Definition bottom_available (td bd : display.Display) (e : gfx.Rect) : Z :=
  Int32.sub (bottommost_display_y bd) (top_growth_end td bd e).

Definition below (td bd : display.Display) (required : Z)
    (e : gfx.Rect) : Z * Z :=
  (bottom_growth_start td bd e, required).

Definition above (td bd : display.Display) (required : Z)
    (e : gfx.Rect) : Z * Z :=
  (Int32.sub (top_growth_end td bd e) required, required).

End Vertical.

(** ** Errors

    [std::vector::at] throws [std::out_of_range]; [DCHECK(parent_)]
    guards the use of the parent view. *)

Inductive error : Type :=
  | out_of_range
  | dcheck_failed.

Inductive result (A : Type) : Type :=
  | Ok (a : A)
  | Err (e : error).

Arguments Ok {A} a.
Arguments Err {A} e.

Definition bind {A B : Type} (r : result A) (k : A -> result B) : result B :=
  match r with
  | Ok a => k a
  | Err e => Err e
  end.

Notation "x <- r ;; k" := (bind r (fun x => k))
  (at level 61, r at next level, right associativity).

(** [base::string16]: a sequence of 16-bit code units. *)
Definition string16 : Type := list N.

Module vector.

(** No [std::vector] holds more than [PTRDIFF_MAX] elements. *)
Definition max_size : Z := 9223372036854775807.

Definition size {A : Type} (v : list A) : Z := Z.of_nat (length v).

(** [v.at(n)], the argument already converted to [size_t]. *)
Definition at_ {A : Type} (v : list A) (n : Z) : result A :=
  if n <? size v then
    match nth_error v (Z.to_nat n) with
    | Some a => Ok a
    | None => Err out_of_range
    end
  else Err out_of_range.

End vector.

(** ** The popup object *)

(** The constants of the class declaration. *)
Class Constants := {
  kPopupBorderThickness : Z;
  kRowHeight : Z;
  kEndPadding : Z;
  kNamePadding : Z
}.

(** The toolkit the popup consumes: fonts and text measurement, the
    parent view and its coordinate conversion, the screen's display
    lookup. *)
Class Toolkit := {
  FontList : Type;
  GetStringWidth : string16 -> FontList -> Z;
  View : Type;
  ConvertPointToScreen : View -> gfx.Point -> gfx.Point;
  GetDisplayNearestPoint : gfx.Point -> display.Display
}.

Section AutofillPopup.

Context {constants : Constants} {toolkit : Toolkit}.

Record AutofillPopup := mkAutofillPopup {
  element_bounds_ : gfx.Rect;
  popup_bounds_ : gfx.Rect;
  values_ : list string16;
  labels_ : list string16;
  parent_ : option View;
  bold_font_list_ : FontList;
  smaller_font_list_ : FontList
}.

Definition set_popup_bounds_ (p : AutofillPopup) (r : gfx.Rect)
    : AutofillPopup :=
  mkAutofillPopup (element_bounds_ p) r (values_ p) (labels_ p)
                  (parent_ p) (bold_font_list_ p) (smaller_font_list_ p).

Definition GetValueFontListForRow (p : AutofillPopup) (index : Z)
    : FontList :=
  bold_font_list_ p.

Definition GetLabelFontListForRow (p : AutofillPopup) (index : Z)
    : FontList :=
  smaller_font_list_ p.

Definition GetLineCount (p : AutofillPopup) : Z :=
  SizeT.to_int (vector.size (values_ p)).

Definition GetValueAt (p : AutofillPopup) (i : Z) : result string16 :=
  vector.at_ (values_ p) (SizeT.of_int i).

Definition GetLabelAt (p : AutofillPopup) (i : Z) : result string16 :=
  vector.at_ (labels_ p) (SizeT.of_int i).

(** [2 * kPopupBorderThickness] is an [int] product; the sum and the
    other product are taken in [size_t]; the [return] narrows to
    [int]. *)
Definition GetDesiredPopupHeight (p : AutofillPopup) : Z :=
  SizeT.to_int
    (SizeT.add (SizeT.of_int (Int32.mul 2 kPopupBorderThickness))
               (SizeT.mul (vector.size (values_ p))
                          (SizeT.of_int kRowHeight))).

(** The body of the [for] loop of [GetDesiredPopupWidth], [remaining]
    being [values_.size() - i]. *)
Fixpoint GetDesiredPopupWidth_loop (p : AutofillPopup) (remaining : nat)
    (i : Z) (popup_width : Z) : result Z :=
  match remaining with
  | O => Ok popup_width
  | S remaining' =>
      value <- GetValueAt p (SizeT.to_int i) ;;
      label <- GetLabelAt p (SizeT.to_int i) ;;
      let row_size :=
        Int32.add
          (Int32.add
             (Int32.add kEndPadding (Int32.mul 2 kPopupBorderThickness))
             (GetStringWidth value (GetValueFontListForRow p (SizeT.to_int i))))
          (GetStringWidth label (GetLabelFontListForRow p (SizeT.to_int i))) in
      label' <- GetLabelAt p (SizeT.to_int i) ;;
      let row_size :=
        if vector.size label' >? 0
        then Int32.add row_size (Int32.add kNamePadding kEndPadding)
        else row_size in
      GetDesiredPopupWidth_loop p remaining' (i + 1)
                                (Z.max popup_width row_size)
  end.

Definition GetDesiredPopupWidth (p : AutofillPopup) : result Z :=
  let popup_width := gfx.width (element_bounds_ p) in
  GetDesiredPopupWidth_loop p (length (values_ p)) 0 popup_width.

Definition GetRowBounds (p : AutofillPopup) (index : Z) : gfx.Rect :=
  let top := Int32.add kPopupBorderThickness (Int32.mul index kRowHeight) in
  gfx.MakeRect kPopupBorderThickness top
               (Int32.sub (gfx.width (popup_bounds_ p))
                          (Int32.mul 2 kPopupBorderThickness))
               kRowHeight.

(** The body of the [for] loop of [LineFromY], [remaining] being
    [values_.size() - i]. *)
Fixpoint LineFromY_loop (p : AutofillPopup) (remaining : nat) (i : Z)
    (current_height : Z) (y : Z) : Z :=
  match remaining with
  | O => SizeT.to_int (SizeT.sub (vector.size (values_ p)) 1)
  | S remaining' =>
      let current_height := Int32.add current_height kRowHeight in
      if y <=? current_height
      then SizeT.to_int i
      else LineFromY_loop p remaining' (i + 1) current_height y
  end.

Definition LineFromY (p : AutofillPopup) (y : Z) : Z :=
  let current_height := kPopupBorderThickness in
  LineFromY_loop p (length (values_ p)) 0 current_height y.

Definition UpdatePopupBounds (p : AutofillPopup) : result AutofillPopup :=
  match parent_ p with
  | None => Err dcheck_failed
  | Some parent =>
      let origin :=
        ConvertPointToScreen parent (gfx.origin (element_bounds_ p)) in
      let bounds := gfx.RectOf origin (gfx.size (element_bounds_ p)) in
      desired_width <- GetDesiredPopupWidth p ;;
      let desired_height := GetDesiredPopupHeight p in
      let is_rtl := false in
      let top_left_corner_of_popup :=
        gfx.Point_plus origin
          (gfx.mkVector2d (Int32.sub (gfx.width bounds) desired_width)
                          (Int32.neg desired_height)) in
      let bottom_right_corner_of_popup :=
        gfx.Point_plus origin
          (gfx.mkVector2d desired_width
                          (Int32.add (gfx.height bounds) desired_height)) in
      let top_left_display :=
        GetDisplayNearestPoint top_left_corner_of_popup in
      let bottom_right_display :=
        GetDisplayNearestPoint bottom_right_corner_of_popup in
      let popup_x_and_width :=
        CalculatePopupXAndWidth top_left_display bottom_right_display
                                desired_width bounds is_rtl in
      let popup_y_and_height :=
        CalculatePopupYAndHeight top_left_display bottom_right_display
                                 desired_height bounds in
      Ok (set_popup_bounds_ p
            (gfx.mkRect (fst popup_x_and_width) (fst popup_y_and_height)
                        (snd popup_x_and_width) (snd popup_y_and_height)))
  end.

(** *** The row scan in the words of the specification

    The first row, counted from [i], whose accumulated bottom edge
    [kPopupBorderThickness + (i + 1) * kRowHeight] reaches [y]. *)
Fixpoint first_row_reaching (remaining : nat) (i : Z) (y : Z) : option Z :=
  match remaining with
  | O => None
  | S remaining' =>
      if y <=? kPopupBorderThickness + (i + 1) * kRowHeight
      then Some i
      else first_row_reaching remaining' (i + 1) y
  end.

Definition RowIndexAtY (rowCount : nat) (y : Z) : Z :=
  match first_row_reaching rowCount 0 y with
  | Some i => i
  | None => Z.of_nat rowCount - 1
  end.

End AutofillPopup.

Module VerticalSpec.

(** The vertical placement in the words of the specification, with the
    same clamping structure as the horizontal one: the room below the
    anchor reaches from its clamped bottom edge to the bottom of the
    display, the room above from the top of the display to its clamped
    top edge. *)
Definition room_below (td bd : display.Display) (e : gfx.Rect) : Z :=
  Int32.sub (Vertical.bottommost_display_y bd)
            (Vertical.bottom_growth_start td bd e).

Definition room_above (td bd : display.Display) (e : gfx.Rect) : Z :=
  Int32.sub (Vertical.top_growth_end td bd e)
            (Vertical.topmost_display_y td).

(** Below the anchor if and only if the room below is at least the
    required height or at least the room above; otherwise above. *)
Definition policy (td bd : display.Display) (required : Z)
    (e : gfx.Rect) : Z * Z :=
  if (room_below td bd e >=? required)
     || (room_below td bd e >=? room_above td bd e)
  then Vertical.below td bd required e
  else Vertical.above td bd required e.

End VerticalSpec.

(** The horizontal extent of a display as the placement reads it: from
    [bounds().x()] over [GetSizeInPixel().width()] pixels, all within
    [int]. *)
Definition Display_horizontal_ok (d : display.Display) : Prop :=
  Int32.in_range (gfx.x (display.bounds d)) /\
  0 <= gfx.Size_width (display.GetSizeInPixel d) <= Int32.max_int /\
  Int32.in_range (gfx.x (display.bounds d)
                  + gfx.Size_width (display.GetSizeInPixel d)).

(** The anchor lies between the left and the right edge of the display. *)
Definition contained_horizontally (d : display.Display) (e : gfx.Rect)
    : Prop :=
  gfx.x (display.bounds d) <= gfx.x e /\
  gfx.x e + gfx.width e
    <= gfx.x (display.bounds d) + gfx.Size_width (display.GetSizeInPixel d).

(** *** The locals of [UpdatePopupBounds], by name *)

Section Reposition.

Context {constants : Constants} {toolkit : Toolkit}.

(** The anchor in screen coordinates. *)
Definition screen_bounds (p : AutofillPopup) (parent : View) : gfx.Rect :=
  gfx.RectOf (ConvertPointToScreen parent (gfx.origin (element_bounds_ p)))
             (gfx.size (element_bounds_ p)).

Definition top_left_display (p : AutofillPopup) (parent : View)
    (desired_width : Z) : display.Display :=
  let bounds := screen_bounds p parent in
  GetDisplayNearestPoint
    (gfx.Point_plus (gfx.origin bounds)
       (gfx.mkVector2d (Int32.sub (gfx.width bounds) desired_width)
                       (Int32.neg (GetDesiredPopupHeight p)))).

Definition bottom_right_display (p : AutofillPopup) (parent : View)
    (desired_width : Z) : display.Display :=
  let bounds := screen_bounds p parent in
  GetDisplayNearestPoint
    (gfx.Point_plus (gfx.origin bounds)
       (gfx.mkVector2d desired_width
          (Int32.add (gfx.height bounds) (GetDesiredPopupHeight p)))).

End Reposition.

(** ** Concrete configurations

    A choice of the constants and of the toolkit on which the model is
    evaluated, and a few popups over it. *)

Module Sample.

Definition constants : Constants :=
  {| kPopupBorderThickness := 1;
     kRowHeight := 24;
     kEndPadding := 8;
     kNamePadding := 15 |}.

Definition screen : display.Display :=
  display.mkDisplay (gfx.mkRect 0 0 1920 1080) (gfx.mkSize 1920 1080).

(** Every code unit seven pixels wide, the view at the screen's origin,
    one screen. *)
Definition toolkit : Toolkit :=
  {| FontList := unit;
     GetStringWidth := fun s _ => 7 * Z.of_nat (length s);
     View := unit;
     ConvertPointToScreen := fun _ pt => pt;
     GetDisplayNearestPoint := fun _ => screen |}.

Definition popup (values labels : list string16)
    : @AutofillPopup toolkit :=
  @mkAutofillPopup toolkit
    (gfx.mkRect 100 100 50 20) (gfx.mkRect 100 120 50 20)
    values labels (Some tt) tt tt.

(** "ab", "cde", "f" with the labels "x", "", "yz". *)
Definition three_values : list string16 :=
  [[97; 98]; [99; 100; 101]; [102]]%N.

Definition three_labels : list string16 :=
  [[120]; []; [121; 122]]%N.

(** The displays of the scenario: the leftmost usable x is -30, the
    rightmost 190, around the anchor (100, 100, 50, 20). *)
Definition left_display : display.Display :=
  display.mkDisplay (gfx.mkRect (-30) 0 30 200) (gfx.mkSize 30 200).

Definition right_display : display.Display :=
  display.mkDisplay (gfx.mkRect 0 0 190 200) (gfx.mkSize 190 200).

Definition anchor : gfx.Rect := gfx.mkRect 100 100 50 20.

End Sample.

(** The rectangle [UpdatePopupBounds] stores, given the parent view and
    the desired width. *)
Definition stored_bounds {constants : Constants} {toolkit : Toolkit}
    (p : AutofillPopup) (parent : View) (desired_width : Z) : gfx.Rect :=
  let ld := top_left_display p parent desired_width in
  let rd := bottom_right_display p parent desired_width in
  let bounds := screen_bounds p parent in
  let popup_x_and_width :=
    CalculatePopupXAndWidth ld rd desired_width bounds false in
  let popup_y_and_height :=
    CalculatePopupYAndHeight ld rd (GetDesiredPopupHeight p) bounds in
  gfx.mkRect (fst popup_x_and_width) (fst popup_y_and_height)
             (snd popup_x_and_width) (snd popup_y_and_height).

(** ** The widest row

    What the loop of [GetDesiredPopupWidth] accumulates, as one
    expression over the rows: the size of a row is the sum the loop body
    forms, and the desired width the largest of the anchor's width and
    the row sizes. *)

Section WidestRow.

Context {constants : Constants} {toolkit : Toolkit}.

Definition row_size (p : AutofillPopup) (value label : string16) : Z :=
  let row_size :=
    Int32.add
      (Int32.add
         (Int32.add kEndPadding (Int32.mul 2 kPopupBorderThickness))
         (GetStringWidth value (bold_font_list_ p)))
      (GetStringWidth label (smaller_font_list_ p)) in
  if vector.size label >? 0
  then Int32.add row_size (Int32.add kNamePadding kEndPadding)
  else row_size.

Definition widen (p : AutofillPopup) (popup_width : Z)
    (row : string16 * string16) : Z :=
  Z.max popup_width (row_size p (fst row) (snd row)).

Definition widest_row (p : AutofillPopup) : Z :=
  fold_left (widen p) (combine (values_ p) (labels_ p))
            (gfx.width (element_bounds_ p)).

(** The value the scan of [LineFromY] settles on from row [i] on. *)
Definition scan_result (remaining : nat) (i : Z) (y : Z) : Z :=
  match first_row_reaching remaining i y with
  | Some r => r
  | None => i + Z.of_nat remaining - 1
  end.

End WidestRow.

(** The vertical extent of a display as the placement reads it. *)
Definition Display_vertical_ok (d : display.Display) : Prop :=
  Int32.in_range (gfx.y (display.bounds d)) /\
  0 <= gfx.Size_height (display.GetSizeInPixel d) <= Int32.max_int /\
  Int32.in_range (gfx.y (display.bounds d)
                  + gfx.Size_height (display.GetSizeInPixel d)).

(** The anchor lies between the top and the bottom edge of the display. *)
Definition contained_vertically (d : display.Display) (e : gfx.Rect)
    : Prop :=
  gfx.y (display.bounds d) <= gfx.y e /\
  gfx.y e + gfx.height e
    <= gfx.y (display.bounds d) + gfx.Size_height (display.GetSizeInPixel d).

(** ** Showing and hiding

    [Hide] and the observer callback that calls it.  The object holds
    the popup's data and the pointer to its view; the calls it makes on
    the parent view and on its own view are recorded in order. *)

Section Lifetime.

Context {constants : Constants} {toolkit : Toolkit}.

(** [AutofillPopupView]. *)
Variable AutofillPopupView : Type.

Inductive call : Type :=
  | RemoveObserver (parent : View)
  | ViewHide (view : AutofillPopupView).

Record Object := mkObject {
  popup : AutofillPopup;
  view_ : option AutofillPopupView
}.

Definition set_parent_ (p : AutofillPopup) (parent : option View)
    : AutofillPopup :=
  mkAutofillPopup (element_bounds_ p) (popup_bounds_ p) (values_ p)
                  (labels_ p) parent (bold_font_list_ p)
                  (smaller_font_list_ p).

Definition Hide (o : Object) : Object * list call :=
  let '(o, calls) :=
    match parent_ (popup o) with
    | Some parent =>
        (mkObject (set_parent_ (popup o) None) (view_ o),
         [RemoveObserver parent])
    | None => (o, [])
    end in
  match view_ o with
  | Some view => (mkObject (popup o) None, calls ++ [ViewHide view])
  | None => (o, calls)
  end.

Definition OnViewIsDeleting (o : Object) (view : View)
    : Object * list call :=
  Hide o.

End Lifetime.

Arguments RemoveObserver {toolkit AutofillPopupView} parent.
Arguments ViewHide {toolkit AutofillPopupView} view.
Arguments mkObject {toolkit AutofillPopupView} popup view_.
Arguments popup {toolkit AutofillPopupView} o.
Arguments view_ {toolkit AutofillPopupView} o.
Arguments Hide {toolkit AutofillPopupView} o.
Arguments OnViewIsDeleting {toolkit AutofillPopupView} o view.

(** * Properties *)

(** ** Machine arithmetic *)

Lemma Int32_wrap_small (z : Z) : Int32.in_range z -> Int32.wrap z = z.
Proof.
  unfold Int32.in_range, Int32.wrap, Int32.min_int, Int32.max_int,
    Int32.modulus.
  intros H. rewrite Z.mod_small by lia. lia.
Qed.

Lemma Int32_wrap_in_range (z : Z) : Int32.in_range (Int32.wrap z).
Proof.
  unfold Int32.in_range, Int32.wrap, Int32.min_int, Int32.max_int,
    Int32.modulus.
  pose proof (Z.mod_pos_bound (z - -2147483648) 4294967296 ltac:(lia)).
  lia.
Qed.

(** [wrap] only depends on the class modulo [2^32]. *)
Lemma Int32_wrap_congr (a b k : Z) :
  a = b + k * Int32.modulus -> Int32.wrap a = Int32.wrap b.
Proof.
  intros ->. unfold Int32.wrap.
  replace (b + k * Int32.modulus - Int32.min_int)
    with (b - Int32.min_int + k * Int32.modulus) by ring.
  now rewrite Z.mod_add by (unfold Int32.modulus; lia).
Qed.

Lemma Int32_wrap_decompose (z : Z) :
  exists k, Int32.wrap z = z + k * Int32.modulus.
Proof.
  unfold Int32.wrap.
  exists (- ((z - Int32.min_int) / Int32.modulus)).
  pose proof (Z.div_mod (z - Int32.min_int) Int32.modulus
                ltac:(unfold Int32.modulus; lia)).
  lia.
Qed.

Lemma SizeT_wrap_decompose (z : Z) :
  exists k, SizeT.wrap z = z + k * Int32.modulus.
Proof.
  unfold SizeT.wrap.
  exists (- (z / SizeT.modulus) * 4294967296).
  pose proof (Z.div_mod z SizeT.modulus ltac:(unfold SizeT.modulus; lia)).
  unfold SizeT.modulus, Int32.modulus in *. lia.
Qed.

(** ** Horizontal placement *)

Lemma CalculatePopupXAndWidth_locals ld rd required e is_rtl :
  CalculatePopupXAndWidth ld rd required e is_rtl =
  if is_rtl then
    if (Horizontal.left_available ld rd e
          >=? Horizontal.popup_width ld rd required e)
       || (Horizontal.left_available ld rd e
             >=? Horizontal.right_available ld rd e)
    then Horizontal.grow_left ld rd required e
    else Horizontal.grow_right ld rd required e
  else
    if (Horizontal.right_available ld rd e
          >=? Horizontal.popup_width ld rd required e)
       || (Horizontal.right_available ld rd e
             >=? Horizontal.left_available ld rd e)
    then Horizontal.grow_right ld rd required e
    else Horizontal.grow_left ld rd required e.
Proof.
  unfold CalculatePopupXAndWidth, Horizontal.grow_left, Horizontal.grow_right,
    Horizontal.popup_width, Horizontal.left_available,
    Horizontal.right_available, Horizontal.left_growth_end,
    Horizontal.right_growth_start, Horizontal.rightmost_display_x,
    Horizontal.leftmost_display_x.
  cbv zeta. reflexivity.
Qed.

Lemma CalculatePopupYAndHeight_locals td bd required e :
  CalculatePopupYAndHeight td bd required e =
  if (Vertical.bottom_available td bd e >=? required)
     || (Vertical.bottom_available td bd e >=? Vertical.top_available td bd e)
  then Vertical.below td bd required e
  else Vertical.above td bd required e.
Proof.
  unfold CalculatePopupYAndHeight, Vertical.below, Vertical.above,
    Vertical.bottom_available, Vertical.top_available,
    Vertical.bottom_growth_start, Vertical.top_growth_end,
    Vertical.bottommost_display_y, Vertical.topmost_display_y.
  cbv zeta. reflexivity.
Qed.

(** The test against the clamped width decides as the test against the
    required width does. *)
Lemma enough_or_more (a b required : Z) :
  (a >=? Z.min required (Z.max a b)) || (a >=? b)
  = negb ((a <? required) && (a <? b)).
Proof.
  destruct (a >=? Z.min required (Z.max a b)) eqn:E1;
    destruct (a >=? b) eqn:E2;
    destruct (a <? required) eqn:E3;
    destruct (a <? b) eqn:E4; simpl; try reflexivity; exfalso; lia.
Qed.

(** The source's test and the specification's pick the same pair. *)
Lemma horizontal_policy_eq ld rd required e is_rtl :
  CalculatePopupXAndWidth ld rd required e is_rtl
  = Horizontal.policy ld rd required e is_rtl.
Proof.
  rewrite CalculatePopupXAndWidth_locals.
  unfold Horizontal.policy, Horizontal.popup_width.
  destruct is_rtl.
  - rewrite (Z.max_comm (Horizontal.right_available ld rd e)).
    rewrite enough_or_more.
    now destruct ((_ <? required) && _).
  - rewrite enough_or_more.
    now destruct ((_ <? required) && _).
Qed.

(** C2: in left-to-right mode the placement grows left exactly when the
    space available on the right is smaller than the required width and
    smaller than the space available on the left, and grows right
    otherwise (whenever the right has the required width or at least as
    much as the left); in right-to-left mode the two sides exchange
    their roles. *)
Theorem CalculatePopupXAndWidth_policy :
  forall (ld rd : display.Display) (required : Z) (e : gfx.Rect)
         (is_rtl : bool),
    CalculatePopupXAndWidth ld rd required e is_rtl
    = Horizontal.policy ld rd required e is_rtl.
Proof.
  intros ld rd required e is_rtl. apply horizontal_policy_eq.
Qed.

(** C1: for an anchor that lies within one display, passed as both the
    left and the right display, and a non-negative required width, the
    returned width does not exceed the required one and the interval
    from the returned x over the returned width lies within the
    display's horizontal extent, in either text direction. *)
Theorem CalculatePopupXAndWidth_within_display :
  forall (d : display.Display) (required : Z) (e : gfx.Rect) (is_rtl : bool),
    Display_horizontal_ok d ->
    gfx.Rect_ok e ->
    contained_horizontally d e ->
    0 <= required ->
    let x := fst (CalculatePopupXAndWidth d d required e is_rtl) in
    let w := snd (CalculatePopupXAndWidth d d required e is_rtl) in
    0 <= w <= required /\
    gfx.x (display.bounds d) <= x /\
    x + w <= gfx.x (display.bounds d)
             + gfx.Size_width (display.GetSizeInPixel d).
Proof.
  intros d required e is_rtl (Hl & Hw & Hr) (Hx & _ & Hew & _) (Hc1 & Hc2) Hreq.
  unfold CalculatePopupXAndWidth, gfx.right, Int32.add, Int32.sub.
  set (l := gfx.x (display.bounds d)) in *.
  set (pw := gfx.Size_width (display.GetSizeInPixel d)) in *.
  set (ex := gfx.x e) in *. set (ew := gfx.width e) in *.
  rewrite (Z.add_comm pw l).
  rewrite (Int32_wrap_small (l + pw)) by assumption.
  rewrite (Int32_wrap_small (ex + ew))
    by (unfold Int32.in_range, Int32.min_int, Int32.max_int in *; lia).
  replace (Z.max l (Z.min (l + pw) ex)) with ex by lia.
  replace (Z.max l (Z.min (l + pw) (ex + ew))) with (ex + ew) by lia.
  rewrite (Int32_wrap_small (l + pw - ex))
    by (unfold Int32.in_range, Int32.min_int, Int32.max_int in *; lia).
  rewrite (Int32_wrap_small (ex + ew - l))
    by (unfold Int32.in_range, Int32.min_int, Int32.max_int in *; lia).
  set (ra := l + pw - ex). set (la := ex + ew - l).
  set (w := Z.min required (Z.max ra la)).
  assert (Hw0 : 0 <= w <= required) by (subst w ra la; lia).
  assert (Hwm : w <= Z.max ra la) by (subst w; lia).
  destruct is_rtl.
  - destruct ((la >=? w) || (la >=? ra)) eqn:E; cbn [fst snd].
    + apply orb_true_iff in E.
      rewrite (Int32_wrap_small (ex + ew - w))
        by (unfold Int32.in_range, Int32.min_int, Int32.max_int in *;
            subst ra la; lia).
      subst ra la; lia.
    + apply orb_false_iff in E. subst ra la; lia.
  - destruct ((ra >=? w) || (ra >=? la)) eqn:E; cbn [fst snd].
    + apply orb_true_iff in E. subst ra la; lia.
    + apply orb_false_iff in E.
      rewrite (Int32_wrap_small (ex + ew - w))
        by (unfold Int32.in_range, Int32.min_int, Int32.max_int in *;
            subst ra la; lia).
      subst ra la; lia.
Qed.

(** C5: with a required width of 200, 90 pixels available on the right
    and 180 on the left, the left-to-right placement grows left and its
    width is 180. *)
Theorem CalculatePopupXAndWidth_scenario_grows_left :
  forall (ld rd : display.Display) (e : gfx.Rect),
    Horizontal.right_available ld rd e = 90 ->
    Horizontal.left_available ld rd e = 180 ->
    CalculatePopupXAndWidth ld rd 200 e false
      = Horizontal.grow_left ld rd 200 e /\
    snd (CalculatePopupXAndWidth ld rd 200 e false) = 180 /\
    fst (CalculatePopupXAndWidth ld rd 200 e false)
      = Int32.sub (Horizontal.left_growth_end ld rd e) 180.
Proof.
  intros ld rd e Hra Hla.
  rewrite CalculatePopupXAndWidth_locals.
  unfold Horizontal.grow_left, Horizontal.popup_width.
  rewrite Hra, Hla. cbn. auto.
Qed.

(** ** Vertical placement *)

(** C3: the placement is not the one the specification words.  The
    source takes the space below from the anchor's top edge and the
    space above up to the anchor's bottom edge.  On a display 1080 high
    with the anchor (100, 1040, 50, 30) and a required height of 40 the
    room below the anchor is 10 and the room above 1040, so the popup
    belongs above, at (1000, 40); the source counts 40 below and 1070
    above and returns the placement below, (1070, 40), which ends past
    the display. *)
Theorem CalculatePopupYAndHeight_crossed_measures :
  VerticalSpec.room_below Sample.screen Sample.screen
                          (gfx.mkRect 100 1040 50 30) = 10 /\
  VerticalSpec.room_above Sample.screen Sample.screen
                          (gfx.mkRect 100 1040 50 30) = 1040 /\
  VerticalSpec.policy Sample.screen Sample.screen 40
                      (gfx.mkRect 100 1040 50 30) = (1000, 40) /\
  Vertical.bottom_available Sample.screen Sample.screen
                            (gfx.mkRect 100 1040 50 30) = 40 /\
  Vertical.top_available Sample.screen Sample.screen
                         (gfx.mkRect 100 1040 50 30) = 1070 /\
  CalculatePopupYAndHeight Sample.screen Sample.screen 40
                           (gfx.mkRect 100 1040 50 30) = (1070, 40) /\
  CalculatePopupYAndHeight Sample.screen Sample.screen 40
                           (gfx.mkRect 100 1040 50 30)
    <> VerticalSpec.policy Sample.screen Sample.screen 40
                           (gfx.mkRect 100 1040 50 30).
Proof.
  repeat split; try (vm_compute; reflexivity).
  vm_compute. discriminate.
Qed.

(** C4: the returned height is the required height, whichever branch is
    taken. *)
Theorem CalculatePopupYAndHeight_height :
  forall (td bd : display.Display) (required : Z) (e : gfx.Rect),
    snd (CalculatePopupYAndHeight td bd required e) = required.
Proof.
  intros td bd required e.
  rewrite CalculatePopupYAndHeight_locals.
  now destruct (_ || _).
Qed.

Ltac by_evaluation := vm_compute; repeat split; intros; discriminate.

Lemma CalculatePopupXAndWidth_within_display_witness :
  Display_horizontal_ok Sample.screen /\
  gfx.Rect_ok Sample.anchor /\
  contained_horizontally Sample.screen Sample.anchor /\
  0 <= 200 /\
  let x := fst (CalculatePopupXAndWidth Sample.screen Sample.screen 200
                                        Sample.anchor false) in
  let w := snd (CalculatePopupXAndWidth Sample.screen Sample.screen 200
                                        Sample.anchor false) in
  0 <= w <= 200 /\
  gfx.x (display.bounds Sample.screen) <= x /\
  x + w <= gfx.x (display.bounds Sample.screen)
           + gfx.Size_width (display.GetSizeInPixel Sample.screen).
Proof.
  assert (Hd : Display_horizontal_ok Sample.screen) by by_evaluation.
  assert (He : gfx.Rect_ok Sample.anchor) by by_evaluation.
  assert (Hc : contained_horizontally Sample.screen Sample.anchor)
    by by_evaluation.
  assert (Hr : 0 <= 200) by lia.
  exact (conj Hd (conj He (conj Hc (conj Hr
           (CalculatePopupXAndWidth_within_display
              Sample.screen 200 Sample.anchor false Hd He Hc Hr))))).
Defined.

Lemma CalculatePopupXAndWidth_scenario_grows_left_witness :
  Horizontal.right_available Sample.left_display Sample.right_display
                             Sample.anchor = 90 /\
  Horizontal.left_available Sample.left_display Sample.right_display
                            Sample.anchor = 180 /\
  CalculatePopupXAndWidth Sample.left_display Sample.right_display 200
                          Sample.anchor false = (-30, 180).
Proof.
  split; [reflexivity | split; [reflexivity |]].
  destruct (CalculatePopupXAndWidth_scenario_grows_left
              Sample.left_display Sample.right_display Sample.anchor
              eq_refl eq_refl) as (H & _).
  rewrite H. reflexivity.
Defined.

(** ** Index access *)

Lemma vector_at_in_bounds {A : Type} (v : list A) (n : Z) :
  0 <= n < vector.size v ->
  exists a, nth_error v (Z.to_nat n) = Some a /\ vector.at_ v n = Ok a.
Proof.
  intros Hn. unfold vector.at_.
  destruct (n <? vector.size v) eqn:E; [|lia].
  destruct (nth_error v (Z.to_nat n)) as [a|] eqn:En.
  - now exists a.
  - apply nth_error_None in En. unfold vector.size in Hn. lia.
Qed.

Lemma vector_at_out_of_bounds {A : Type} (v : list A) (n : Z) :
  vector.size v <= n -> vector.at_ v n = Err out_of_range.
Proof.
  intros Hn. unfold vector.at_.
  destruct (n <? vector.size v) eqn:E; [lia | reflexivity].
Qed.

Lemma SizeT_of_int_nonneg (i : Z) :
  0 <= i < SizeT.modulus -> SizeT.of_int i = i.
Proof. intros H. unfold SizeT.of_int, SizeT.wrap. now apply Z.mod_small. Qed.

Lemma SizeT_of_int_negative (i : Z) :
  Int32.min_int <= i < 0 -> SizeT.of_int i = i + SizeT.modulus.
Proof.
  intros H. unfold SizeT.of_int, SizeT.wrap.
  rewrite <- (Z.mod_add i 1 SizeT.modulus) by (unfold SizeT.modulus; lia).
  apply Z.mod_small.
  unfold Int32.min_int, SizeT.modulus in *. lia.
Qed.

(** Access through an [int] index into a vector of admissible size. *)
Lemma vector_at_int {A : Type} (v : list A) (i : Z) :
  Int32.in_range i ->
  vector.size v <= vector.max_size ->
  (vector.at_ v (SizeT.of_int i) = Err out_of_range
   <-> ~ 0 <= i < vector.size v) /\
  (0 <= i < vector.size v ->
   exists a, nth_error v (Z.to_nat i) = Some a
             /\ vector.at_ v (SizeT.of_int i) = Ok a).
Proof.
  intros Hi Hv.
  assert (Hin : 0 <= i < vector.size v ->
                exists a, nth_error v (Z.to_nat i) = Some a
                          /\ vector.at_ v (SizeT.of_int i) = Ok a).
  { intros Hb. rewrite SizeT_of_int_nonneg.
    - now apply vector_at_in_bounds.
    - unfold Int32.in_range, Int32.max_int, SizeT.modulus in *. lia. }
  split; [|exact Hin].
  split.
  - intros He Hb. destruct (Hin Hb) as (a & _ & Ha). congruence.
  - intros Hb. apply vector_at_out_of_bounds.
    destruct (Z_lt_dec i 0) as [Hneg|Hpos].
    + rewrite SizeT_of_int_negative
        by (unfold Int32.in_range in Hi; lia).
      unfold Int32.in_range, Int32.min_int, vector.max_size,
        SizeT.modulus in *. lia.
    + rewrite SizeT_of_int_nonneg
        by (unfold Int32.in_range, Int32.max_int, SizeT.modulus in *; lia).
      lia.
Qed.

(** C9: [GetValueAt] and [GetLabelAt] signal the out-of-range error if
    and only if the index is outside the bounds of their list, and for
    an index within the bounds return the text stored there. *)
Theorem index_access_out_of_range_iff_invalid :
  forall {constants : Constants} {toolkit : Toolkit}
         (p : AutofillPopup) (i : Z),
    Int32.in_range i ->
    vector.size (values_ p) <= vector.max_size ->
    vector.size (labels_ p) <= vector.max_size ->
    (GetValueAt p i = Err out_of_range
     <-> ~ 0 <= i < vector.size (values_ p)) /\
    (0 <= i < vector.size (values_ p) ->
     exists s, nth_error (values_ p) (Z.to_nat i) = Some s
               /\ GetValueAt p i = Ok s) /\
    (GetLabelAt p i = Err out_of_range
     <-> ~ 0 <= i < vector.size (labels_ p)) /\
    (0 <= i < vector.size (labels_ p) ->
     exists s, nth_error (labels_ p) (Z.to_nat i) = Some s
               /\ GetLabelAt p i = Ok s).
Proof.
  intros constants toolkit p i Hi Hv Hl.
  destruct (vector_at_int (values_ p) i Hi Hv) as (V1 & V2).
  destruct (vector_at_int (labels_ p) i Hi Hl) as (L1 & L2).
  unfold GetValueAt, GetLabelAt. auto.
Qed.

(** ** Desired size *)

Lemma GetDesiredPopupHeight_congruent
    {constants : Constants} {toolkit : Toolkit} (p : AutofillPopup) :
  exists k,
    SizeT.add (SizeT.of_int (Int32.mul 2 kPopupBorderThickness))
              (SizeT.mul (vector.size (values_ p)) (SizeT.of_int kRowHeight))
    = 2 * kPopupBorderThickness + vector.size (values_ p) * kRowHeight
      + k * Int32.modulus.
Proof.
  unfold SizeT.add, SizeT.mul, SizeT.of_int, Int32.mul.
  set (n := vector.size (values_ p)).
  destruct (Int32_wrap_decompose (2 * kPopupBorderThickness)) as (k1 & E1).
  rewrite E1.
  destruct (SizeT_wrap_decompose (2 * kPopupBorderThickness
                                  + k1 * Int32.modulus)) as (k2 & E2).
  rewrite E2.
  destruct (SizeT_wrap_decompose kRowHeight) as (k3 & E3). rewrite E3.
  destruct (SizeT_wrap_decompose (n * (kRowHeight + k3 * Int32.modulus)))
    as (k4 & E4).
  rewrite E4.
  match goal with
  | |- exists _, SizeT.wrap ?z = _ =>
      destruct (SizeT_wrap_decompose z) as (k5 & E5); rewrite E5
  end.
  exists (k1 + k2 + n * k3 + k4 + k5). ring.
Qed.

(** C6: the desired height is twice the border thickness plus the row
    height times the number of rows, when that value is an [int]; for
    the empty list it is twice the border thickness and the desired
    width is the width of the anchor. *)
Theorem desired_size_formula :
  forall {constants : Constants} {toolkit : Toolkit} (p : AutofillPopup),
    Int32.in_range (2 * kPopupBorderThickness
                    + vector.size (values_ p) * kRowHeight) ->
    GetDesiredPopupHeight p
      = 2 * kPopupBorderThickness + vector.size (values_ p) * kRowHeight
    /\ (values_ p = [] ->
        GetDesiredPopupHeight p = 2 * kPopupBorderThickness
        /\ GetDesiredPopupWidth p = Ok (gfx.width (element_bounds_ p))).
Proof.
  intros constants toolkit p Hr.
  assert (Hh : GetDesiredPopupHeight p
               = 2 * kPopupBorderThickness
                 + vector.size (values_ p) * kRowHeight).
  { unfold GetDesiredPopupHeight, SizeT.to_int.
    destruct (GetDesiredPopupHeight_congruent p) as (k & Ek).
    rewrite (Int32_wrap_congr _ _ k Ek).
    now apply Int32_wrap_small. }
  split; [exact Hh|].
  intros Hempty. split.
  - rewrite Hh, Hempty. unfold vector.size. simpl. lia.
  - unfold GetDesiredPopupWidth. rewrite Hempty. reflexivity.
Qed.

Lemma desired_size_formula_witness :
  Int32.in_range
    (2 * @kPopupBorderThickness Sample.constants
     + vector.size (values_ (Sample.popup Sample.three_values
                                          Sample.three_labels))
       * @kRowHeight Sample.constants) /\
  @GetDesiredPopupHeight Sample.constants Sample.toolkit
    (Sample.popup Sample.three_values Sample.three_labels) = 74.
Proof.
  assert (Hr : Int32.in_range
    (2 * @kPopupBorderThickness Sample.constants
     + vector.size (values_ (Sample.popup Sample.three_values
                                          Sample.three_labels))
       * @kRowHeight Sample.constants)) by by_evaluation.
  split; [exact Hr|].
  destruct (@desired_size_formula Sample.constants Sample.toolkit
              (Sample.popup Sample.three_values Sample.three_labels) Hr)
    as (H & _).
  rewrite H. reflexivity.
Defined.

(** ** Row geometry *)

Lemma Int32_add_mul_exact (a b c : Z) :
  Int32.in_range (a + b * c) -> Int32.add a (Int32.mul b c) = a + b * c.
Proof.
  intros H. unfold Int32.add, Int32.mul.
  destruct (Int32_wrap_decompose (b * c)) as (k & E). rewrite E.
  rewrite (Int32_wrap_congr _ (a + b * c) k) by ring.
  now apply Int32_wrap_small.
Qed.

Lemma Int32_sub_mul_exact (a b c : Z) :
  Int32.in_range (a - b * c) -> Int32.sub a (Int32.mul b c) = a - b * c.
Proof.
  intros H. unfold Int32.sub, Int32.mul.
  destruct (Int32_wrap_decompose (b * c)) as (k & E). rewrite E.
  rewrite (Int32_wrap_congr _ (a - b * c) (- k)) by ring.
  now apply Int32_wrap_small.
Qed.

(** The constructor keeps an extent that is not negative and does not
    carry the far edge past [INT_MAX]. *)
Lemma GetClampedValue_exact (origin extent : Z) :
  0 <= extent -> origin + extent <= Int32.max_int ->
  Z.max 0 (gfx.GetClampedValue origin extent) = extent.
Proof.
  intros H0 Hmax. unfold gfx.GetClampedValue, gfx.AddWouldOverflow.
  destruct ((origin >? 0) && (extent >? 0)
            && (Int32.max_int - origin <? extent)) eqn:E.
  - apply andb_true_iff in E. lia.
  - lia.
Qed.

(** A negative extent is stored as 0. *)
Lemma GetClampedValue_negative (origin extent : Z) :
  extent <= 0 -> Z.max 0 (gfx.GetClampedValue origin extent) = 0.
Proof.
  intros H0. unfold gfx.GetClampedValue, gfx.AddWouldOverflow.
  destruct ((origin >? 0) && (extent >? 0)
            && (Int32.max_int - origin <? extent)) eqn:E.
  - apply andb_true_iff in E. destruct E as (E & _).
    apply andb_true_iff in E. lia.
  - lia.
Qed.

(** C7, as amended: the bounds of row [i] start at the border thickness
    horizontally and at the border thickness plus [i] row heights
    vertically and are one row height high; their width is the popup's
    width less twice the border thickness when the popup is at least
    that wide, and 0 when it is narrower; the tops of consecutive rows
    are one row height apart. *)
Theorem GetRowBounds_geometry :
  forall {constants : Constants} {toolkit : Toolkit}
         (p : AutofillPopup) (i : Z),
    Int32.in_range (kPopupBorderThickness + i * kRowHeight) ->
    Int32.in_range (kPopupBorderThickness + (i + 1) * kRowHeight) ->
    Int32.in_range (gfx.width (popup_bounds_ p) - 2 * kPopupBorderThickness) ->
    gfx.width (popup_bounds_ p) - kPopupBorderThickness <= Int32.max_int ->
    0 <= kRowHeight ->
    GetRowBounds p i
      = gfx.mkRect kPopupBorderThickness
                   (kPopupBorderThickness + i * kRowHeight)
                   (Z.max 0 (gfx.width (popup_bounds_ p)
                             - 2 * kPopupBorderThickness))
                   kRowHeight
    /\ (2 * kPopupBorderThickness <= gfx.width (popup_bounds_ p) ->
        gfx.width (GetRowBounds p i)
        = gfx.width (popup_bounds_ p) - 2 * kPopupBorderThickness)
    /\ (gfx.width (popup_bounds_ p) < 2 * kPopupBorderThickness ->
        gfx.width (GetRowBounds p i) = 0)
    /\ gfx.y (GetRowBounds p (i + 1)) - gfx.y (GetRowBounds p i) = kRowHeight.
Proof.
  intros constants toolkit p i Hy Hy' Hw Hfar Hrh.
  unfold GetRowBounds, gfx.MakeRect. cbn [gfx.y gfx.width].
  rewrite (Int32_add_mul_exact kPopupBorderThickness i kRowHeight Hy).
  rewrite (Int32_add_mul_exact kPopupBorderThickness (i + 1) kRowHeight Hy').
  rewrite (Int32_sub_mul_exact (gfx.width (popup_bounds_ p)) 2
                               kPopupBorderThickness Hw).
  set (w := gfx.width (popup_bounds_ p) - 2 * kPopupBorderThickness) in *.
  rewrite (GetClampedValue_exact (kPopupBorderThickness + i * kRowHeight)
                                 kRowHeight)
    by (unfold Int32.in_range in Hy'; lia).
  assert (Hwidth : Z.max 0 (gfx.GetClampedValue kPopupBorderThickness w)
                   = Z.max 0 w).
  { destruct (Z_le_gt_dec 0 w) as [Hpos|Hneg].
    - rewrite GetClampedValue_exact by (subst w; lia). lia.
    - rewrite GetClampedValue_negative by lia. lia. }
  rewrite Hwidth.
  split; [reflexivity|]. split; [subst w; lia|]. split; [subst w; lia | ring].
Qed.

Lemma GetRowBounds_geometry_witness :
  Int32.in_range (@kPopupBorderThickness Sample.constants
                  + 2 * @kRowHeight Sample.constants) /\
  Int32.in_range (@kPopupBorderThickness Sample.constants
                  + (2 + 1) * @kRowHeight Sample.constants) /\
  Int32.in_range
    (gfx.width (popup_bounds_ (Sample.popup Sample.three_values
                                            Sample.three_labels))
     - 2 * @kPopupBorderThickness Sample.constants) /\
  gfx.width (popup_bounds_ (Sample.popup Sample.three_values
                                         Sample.three_labels))
  - @kPopupBorderThickness Sample.constants <= Int32.max_int /\
  0 <= @kRowHeight Sample.constants /\
  @GetRowBounds Sample.constants Sample.toolkit
    (Sample.popup Sample.three_values Sample.three_labels) 2
    = gfx.mkRect 1 49 48 24 /\
  gfx.y (@GetRowBounds Sample.constants Sample.toolkit
           (Sample.popup Sample.three_values Sample.three_labels) (2 + 1))
  - gfx.y (@GetRowBounds Sample.constants Sample.toolkit
             (Sample.popup Sample.three_values Sample.three_labels) 2)
  = 24.
Proof.
  assert (H1 : Int32.in_range (@kPopupBorderThickness Sample.constants
                               + 2 * @kRowHeight Sample.constants))
    by by_evaluation.
  assert (H2 : Int32.in_range (@kPopupBorderThickness Sample.constants
                               + (2 + 1) * @kRowHeight Sample.constants))
    by by_evaluation.
  assert (H3 : Int32.in_range
    (gfx.width (popup_bounds_ (Sample.popup Sample.three_values
                                            Sample.three_labels))
     - 2 * @kPopupBorderThickness Sample.constants)) by by_evaluation.
  assert (H4 : gfx.width (popup_bounds_ (Sample.popup Sample.three_values
                                                      Sample.three_labels))
               - @kPopupBorderThickness Sample.constants <= Int32.max_int)
    by by_evaluation.
  assert (H5 : 0 <= @kRowHeight Sample.constants) by by_evaluation.
  destruct (@GetRowBounds_geometry Sample.constants Sample.toolkit
              (Sample.popup Sample.three_values Sample.three_labels) 2
              H1 H2 H3 H4 H5) as (Hrect & _ & _ & Hstep).
  exact (conj H1 (conj H2 (conj H3 (conj H4 (conj H5
           (conj Hrect Hstep)))))).
Defined.

(** On a popup of width 0 the rows are 0 wide, not -2: the rectangle
    is built from a negative width and keeps none. *)
Lemma GetRowBounds_width_of_narrow_popup :
  gfx.width (@GetRowBounds Sample.constants Sample.toolkit
               (set_popup_bounds_
                  (Sample.popup Sample.three_values Sample.three_labels)
                  (gfx.mkRect 100 120 0 74)) 0) = 0
  /\ gfx.width (@GetRowBounds Sample.constants Sample.toolkit
                  (set_popup_bounds_
                     (Sample.popup Sample.three_values Sample.three_labels)
                     (gfx.mkRect 100 120 0 74)) 0)
     <> gfx.width (popup_bounds_
                     (set_popup_bounds_
                        (Sample.popup Sample.three_values Sample.three_labels)
                        (gfx.mkRect 100 120 0 74)))
        - 2 * @kPopupBorderThickness Sample.constants.
Proof. split; [reflexivity | vm_compute; discriminate]. Qed.

Lemma index_access_out_of_range_iff_invalid_witness :
  Int32.in_range 1 /\
  vector.size (values_ (Sample.popup Sample.three_values
                                     Sample.three_labels))
    <= vector.max_size /\
  vector.size (labels_ (Sample.popup Sample.three_values
                                     Sample.three_labels))
    <= vector.max_size /\
  @GetValueAt Sample.toolkit
    (Sample.popup Sample.three_values Sample.three_labels) 1
    = Ok [99; 100; 101]%N /\
  (@GetValueAt Sample.toolkit
     (Sample.popup Sample.three_values Sample.three_labels) 1
     = Err out_of_range
   <-> ~ 0 <= 1 < vector.size (values_ (Sample.popup Sample.three_values
                                                     Sample.three_labels))).
Proof.
  assert (H1 : Int32.in_range 1) by by_evaluation.
  assert (H2 : vector.size (values_ (Sample.popup Sample.three_values
                                                  Sample.three_labels))
               <= vector.max_size) by by_evaluation.
  assert (H3 : vector.size (labels_ (Sample.popup Sample.three_values
                                                  Sample.three_labels))
               <= vector.max_size) by by_evaluation.
  repeat split; try assumption; try reflexivity;
    apply (@index_access_out_of_range_iff_invalid
             Sample.constants Sample.toolkit
             (Sample.popup Sample.three_values Sample.three_labels) 1
             H1 H2 H3).
Defined.

(** ** The row under a vertical position *)

Lemma SizeT_to_int_sub_exact (n m : Z) :
  Int32.in_range (n - m) -> SizeT.to_int (SizeT.sub n m) = n - m.
Proof.
  intros H. unfold SizeT.to_int, SizeT.sub.
  destruct (SizeT_wrap_decompose (n - m)) as (k & E). rewrite E.
  rewrite (Int32_wrap_congr _ (n - m) k) by ring.
  now apply Int32_wrap_small.
Qed.

(** Every accumulated height lies between the first and the last. *)
Lemma partial_height_in_range (b rh n j : Z) :
  Int32.in_range b -> Int32.in_range (b + n * rh) -> 0 <= j <= n ->
  Int32.in_range (b + j * rh).
Proof.
  unfold Int32.in_range, Int32.min_int, Int32.max_int.
  intros Hb Hn Hj.
  destruct (Z_le_gt_dec 0 rh) as [Hrh|Hrh]; split; nia.
Qed.

Lemma LineFromY_loop_scan
    {constants : Constants} {toolkit : Toolkit} (p : AutofillPopup) (y : Z) :
  Int32.in_range kPopupBorderThickness ->
  Int32.in_range (kPopupBorderThickness + vector.size (values_ p) * kRowHeight) ->
  vector.size (values_ p) <= Int32.max_int ->
  forall (remaining : nat) (i : Z),
    0 <= i ->
    i + Z.of_nat remaining = vector.size (values_ p) ->
    LineFromY_loop p remaining i (kPopupBorderThickness + i * kRowHeight) y
    = match first_row_reaching remaining i y with
      | Some r => r
      | None => vector.size (values_ p) - 1
      end.
Proof.
  intros Hb Hn Hmax remaining.
  induction remaining as [|k IH]; intros i Hi Hsum.
  - cbn [LineFromY_loop first_row_reaching].
    apply SizeT_to_int_sub_exact.
    unfold Int32.in_range, Int32.min_int, Int32.max_int in *.
    unfold vector.size in *. lia.
  - cbn [LineFromY_loop first_row_reaching].
    assert (Hstep : Int32.add (kPopupBorderThickness + i * kRowHeight)
                              kRowHeight
                    = kPopupBorderThickness + (i + 1) * kRowHeight).
    { unfold Int32.add.
      replace (kPopupBorderThickness + i * kRowHeight + kRowHeight)
        with (kPopupBorderThickness + (i + 1) * kRowHeight) by ring.
      apply Int32_wrap_small.
      apply (partial_height_in_range _ _ (vector.size (values_ p)));
        try assumption.
      lia. }
    rewrite Hstep.
    destruct (y <=? kPopupBorderThickness + (i + 1) * kRowHeight).
    + unfold SizeT.to_int. apply Int32_wrap_small.
      unfold Int32.in_range, Int32.min_int, Int32.max_int in *. lia.
    + apply IH; lia.
Qed.

Lemma first_row_reaching_none {constants : Constants} (y : Z) :
  forall (remaining : nat) (i : Z),
    (forall j, i <= j < i + Z.of_nat remaining ->
               kPopupBorderThickness + (j + 1) * kRowHeight < y) ->
    first_row_reaching remaining i y = None.
Proof.
  induction remaining as [|k IH]; intros i Hall; [reflexivity|].
  cbn [first_row_reaching].
  destruct (y <=? kPopupBorderThickness + (i + 1) * kRowHeight) eqn:E.
  - specialize (Hall i ltac:(lia)). lia.
  - apply IH. intros j Hj. apply Hall. lia.
Qed.

(** C8, as amended: the scan returns the first row whose accumulated
    bottom edge reaches [y] and, when no row does, the row count less
    one; for a non-empty list whose first bottom edge is not negative
    the row at 0 is row 0, a [y] beyond every bottom edge gives the last
    row, and for the empty list every [y] gives -1. *)
Theorem LineFromY_scan :
  forall {constants : Constants} {toolkit : Toolkit}
         (p : AutofillPopup) (y : Z),
    Int32.in_range kPopupBorderThickness ->
    Int32.in_range (kPopupBorderThickness
                    + vector.size (values_ p) * kRowHeight) ->
    vector.size (values_ p) <= Int32.max_int ->
    LineFromY p y = RowIndexAtY (length (values_ p)) y
    /\ (values_ p <> [] -> 0 <= kPopupBorderThickness + kRowHeight ->
        LineFromY p 0 = 0)
    /\ ((forall i, 0 <= i < vector.size (values_ p) ->
                   kPopupBorderThickness + (i + 1) * kRowHeight < y) ->
        LineFromY p y = vector.size (values_ p) - 1)
    /\ (values_ p = [] -> LineFromY p y = -1).
Proof.
  intros constants toolkit p y Hb Hn Hmax.
  assert (Hscan : forall y', LineFromY p y'
                             = RowIndexAtY (length (values_ p)) y').
  { intros y'. unfold LineFromY, RowIndexAtY.
    replace kPopupBorderThickness
      with (kPopupBorderThickness + 0 * kRowHeight) at 1 by ring.
    apply LineFromY_loop_scan; try assumption; try lia.
    reflexivity. }
  split; [apply Hscan|]. split; [|split].
  - intros Hne Hfirst. rewrite Hscan. unfold RowIndexAtY.
    destruct (values_ p) as [|v vs]; [congruence|].
    cbn [length first_row_reaching].
    destruct (0 <=? kPopupBorderThickness + (0 + 1) * kRowHeight) eqn:E;
      [reflexivity | lia].
  - intros Hall. rewrite Hscan. unfold RowIndexAtY.
    rewrite first_row_reaching_none; [reflexivity|].
    intros j Hj. apply Hall. unfold vector.size. lia.
  - intros Hempty. rewrite Hscan, Hempty. reflexivity.
Qed.

Lemma LineFromY_scan_witness :
  Int32.in_range (@kPopupBorderThickness Sample.constants) /\
  Int32.in_range
    (@kPopupBorderThickness Sample.constants
     + vector.size (values_ (Sample.popup Sample.three_values
                                          Sample.three_labels))
       * @kRowHeight Sample.constants) /\
  vector.size (values_ (Sample.popup Sample.three_values
                                     Sample.three_labels))
    <= Int32.max_int /\
  @LineFromY Sample.constants Sample.toolkit
    (Sample.popup Sample.three_values Sample.three_labels) 30 = 1 /\
  @LineFromY Sample.constants Sample.toolkit
    (Sample.popup Sample.three_values Sample.three_labels) 30
  = @RowIndexAtY Sample.constants 3 30.
Proof.
  assert (H1 : Int32.in_range (@kPopupBorderThickness Sample.constants))
    by by_evaluation.
  assert (H2 : Int32.in_range
    (@kPopupBorderThickness Sample.constants
     + vector.size (values_ (Sample.popup Sample.three_values
                                          Sample.three_labels))
       * @kRowHeight Sample.constants)) by by_evaluation.
  assert (H3 : vector.size (values_ (Sample.popup Sample.three_values
                                                  Sample.three_labels))
               <= Int32.max_int) by by_evaluation.
  exact (conj H1 (conj H2 (conj H3 (conj eq_refl
           (proj1 (@LineFromY_scan Sample.constants Sample.toolkit
                     (Sample.popup Sample.three_values Sample.three_labels)
                     30 H1 H2 H3)))))).
Defined.

(** On the empty list the loop body never runs and [values_.size() - 1]
    is returned: the row at 0 is -1, not 0. *)
Lemma LineFromY_zero_on_empty_list :
  @LineFromY Sample.constants Sample.toolkit (Sample.popup [] []) 0 = -1
  /\ @LineFromY Sample.constants Sample.toolkit (Sample.popup [] []) 0 <> 0.
Proof. split; [reflexivity | discriminate]. Qed.

(** ** Recomputing the popup bounds *)






(** * Further properties of the placement *)

Ltac int_bounds :=
  unfold Int32.in_range, Int32.min_int, Int32.max_int in *; lia.

(** The locals of the horizontal placement without wrap-around, for
    displays and an anchor whose coordinates stay within [int]. *)
Lemma horizontal_locals_exact ld rd e :
  Int32.in_range (gfx.x (display.bounds ld)) ->
  Int32.in_range (gfx.Size_width (display.GetSizeInPixel rd)
                  + gfx.x (display.bounds rd)) ->
  gfx.x (display.bounds ld)
    <= gfx.Size_width (display.GetSizeInPixel rd) + gfx.x (display.bounds rd) ->
  gfx.Size_width (display.GetSizeInPixel rd) + gfx.x (display.bounds rd)
    - gfx.x (display.bounds ld) <= Int32.max_int ->
  Int32.in_range (gfx.x e + gfx.width e) ->
  let l := gfx.x (display.bounds ld) in
  let r := gfx.Size_width (display.GetSizeInPixel rd)
           + gfx.x (display.bounds rd) in
  Horizontal.rightmost_display_x rd = r /\
  Horizontal.right_growth_start ld rd e = Z.max l (Z.min r (gfx.x e)) /\
  Horizontal.left_growth_end ld rd e
    = Z.max l (Z.min r (gfx.x e + gfx.width e)) /\
  Horizontal.right_available ld rd e = r - Z.max l (Z.min r (gfx.x e)) /\
  Horizontal.left_available ld rd e
    = Z.max l (Z.min r (gfx.x e + gfx.width e)) - l.
Proof.
  intros Hl Hr Hlr Hspan Her l r.
  assert (E1 : Horizontal.rightmost_display_x rd = r)
    by (unfold Horizontal.rightmost_display_x, Int32.add;
        now apply Int32_wrap_small).
  assert (E2 : gfx.right e = gfx.x e + gfx.width e)
    by (unfold gfx.right, Int32.add; now apply Int32_wrap_small).
  unfold Horizontal.right_available, Horizontal.left_available,
    Horizontal.right_growth_start, Horizontal.left_growth_end,
    Horizontal.leftmost_display_x.
  rewrite E1, E2. fold l.
  repeat split.
  - unfold Int32.sub. apply Int32_wrap_small. subst l r. int_bounds.
  - unfold Int32.sub. apply Int32_wrap_small. subst l r. int_bounds.
Qed.

(** X1: whatever the anchor's position, also off every display, the
    popup stays between the left edge of the left display and the right
    edge of the right display, and its width is between 0 and the
    required width. *)
Theorem CalculatePopupXAndWidth_stays_on_screen :
  forall (ld rd : display.Display) (required : Z) (e : gfx.Rect)
         (is_rtl : bool),
    Int32.in_range (gfx.x (display.bounds ld)) ->
    Int32.in_range (gfx.Size_width (display.GetSizeInPixel rd)
                    + gfx.x (display.bounds rd)) ->
    gfx.x (display.bounds ld)
      <= gfx.Size_width (display.GetSizeInPixel rd)
         + gfx.x (display.bounds rd) ->
    gfx.Size_width (display.GetSizeInPixel rd) + gfx.x (display.bounds rd)
      - gfx.x (display.bounds ld) <= Int32.max_int ->
    Int32.in_range (gfx.x e + gfx.width e) ->
    0 <= required ->
    0 <= snd (CalculatePopupXAndWidth ld rd required e is_rtl) <= required /\
    gfx.x (display.bounds ld)
      <= fst (CalculatePopupXAndWidth ld rd required e is_rtl) /\
    fst (CalculatePopupXAndWidth ld rd required e is_rtl)
    + snd (CalculatePopupXAndWidth ld rd required e is_rtl)
      <= gfx.Size_width (display.GetSizeInPixel rd)
         + gfx.x (display.bounds rd).
Proof.
  intros ld rd required e is_rtl Hl Hr Hlr Hspan Her Hreq.
  destruct (horizontal_locals_exact ld rd e Hl Hr Hlr Hspan Her)
    as (_ & Ergs & Elge & Era & Ela).
  rewrite horizontal_policy_eq.
  unfold Horizontal.policy, Horizontal.grow_left, Horizontal.grow_right,
    Horizontal.popup_width.
  set (l := gfx.x (display.bounds ld)) in *.
  set (r := gfx.Size_width (display.GetSizeInPixel rd)
            + gfx.x (display.bounds rd)) in *.
  set (ra := Horizontal.right_available ld rd e) in *.
  set (la := Horizontal.left_available ld rd e) in *.
  set (rgs := Horizontal.right_growth_start ld rd e) in *.
  set (lge := Horizontal.left_growth_end ld rd e) in *.
  set (w := Z.min required (Z.max ra la)).
  assert (Hw : 0 <= w <= required /\ w <= Z.max ra la) by (subst w; lia).
  assert (Hleft : w <= la -> Int32.sub lge w = lge - w).
  { intros Hwl. unfold Int32.sub. apply Int32_wrap_small. int_bounds. }
  destruct is_rtl.
  - destruct ((la <? required) && (la <? ra)) eqn:E; cbn [fst snd].
    + apply andb_true_iff in E. lia.
    + apply andb_false_iff in E. rewrite Hleft by lia. lia.
  - destruct ((ra <? required) && (ra <? la)) eqn:E; cbn [fst snd].
    + apply andb_true_iff in E. rewrite Hleft by lia. lia.
    + apply andb_false_iff in E. lia.
Qed.

(** X2: the text direction decides where the popup starts, never how
    wide it is: for every input the width is the smaller of the required
    width and the larger available space. *)
Theorem CalculatePopupXAndWidth_width_ignores_direction :
  forall (ld rd : display.Display) (required : Z) (e : gfx.Rect)
         (is_rtl : bool),
    snd (CalculatePopupXAndWidth ld rd required e is_rtl)
      = Z.min required (Z.max (Horizontal.right_available ld rd e)
                              (Horizontal.left_available ld rd e))
    /\ snd (CalculatePopupXAndWidth ld rd required e true)
       = snd (CalculatePopupXAndWidth ld rd required e false)
    /\ snd (CalculatePopupXAndWidth ld rd required e is_rtl) <= required.
Proof.
  intros ld rd required e is_rtl.
  assert (H : forall b, snd (CalculatePopupXAndWidth ld rd required e b)
                        = Horizontal.popup_width ld rd required e).
  { intros b. rewrite horizontal_policy_eq. unfold Horizontal.policy.
    destruct b; destruct (_ && _); reflexivity. }
  rewrite !H. unfold Horizontal.popup_width.
  split; [reflexivity|]. split; [reflexivity | lia].
Qed.

(** X3: with the anchor inside one display and room for the required
    width on both sides, the left-to-right popup starts at the anchor's
    left edge and the right-to-left popup ends at the anchor's right
    edge, both with the full required width. *)
Theorem CalculatePopupXAndWidth_mirrored_alignment :
  forall (d : display.Display) (required : Z) (e : gfx.Rect),
    Display_horizontal_ok d ->
    gfx.Rect_ok e ->
    contained_horizontally d e ->
    0 <= required ->
    required <= gfx.x (display.bounds d)
                + gfx.Size_width (display.GetSizeInPixel d) - gfx.x e ->
    required <= gfx.x e + gfx.width e - gfx.x (display.bounds d) ->
    CalculatePopupXAndWidth d d required e false = (gfx.x e, required) /\
    CalculatePopupXAndWidth d d required e true
      = (gfx.x e + gfx.width e - required, required).
Proof.
  intros d required e (Hl & Hw & Hr) (Hx & _ & Hew & _) (Hc1 & Hc2)
    Hreq Hright Hleft.
  destruct (horizontal_locals_exact d d e) as (_ & Ergs & Elge & Era & Ela);
    try int_bounds.
  rewrite !horizontal_policy_eq.
  unfold Horizontal.policy, Horizontal.grow_left, Horizontal.grow_right,
    Horizontal.popup_width.
  rewrite Era, Ela, Ergs, Elge.
  set (l := gfx.x (display.bounds d)) in *.
  set (r := gfx.Size_width (display.GetSizeInPixel d) + l) in *.
  replace (Z.max l (Z.min r (gfx.x e))) with (gfx.x e) by lia.
  replace (Z.max l (Z.min r (gfx.x e + gfx.width e)))
    with (gfx.x e + gfx.width e) by lia.
  replace (Z.min required (Z.max (r - gfx.x e) (gfx.x e + gfx.width e - l)))
    with required by lia.
  split.
  - destruct ((r - gfx.x e <? required)
              && (r - gfx.x e <? gfx.x e + gfx.width e - l)) eqn:E;
      [apply andb_true_iff in E; lia | reflexivity].
  - destruct ((gfx.x e + gfx.width e - l <? required)
              && (gfx.x e + gfx.width e - l <? r - gfx.x e)) eqn:E;
      [apply andb_true_iff in E; lia |].
    unfold Int32.sub. rewrite Int32_wrap_small by (subst l r; int_bounds).
    reflexivity.
Qed.

Lemma CalculatePopupXAndWidth_stays_on_screen_witness :
  0 <= snd (CalculatePopupXAndWidth Sample.left_display Sample.right_display
              200 (gfx.mkRect 500 100 50 20) false) <= 200 /\
  gfx.x (display.bounds Sample.left_display)
    <= fst (CalculatePopupXAndWidth Sample.left_display Sample.right_display
              200 (gfx.mkRect 500 100 50 20) false) /\
  fst (CalculatePopupXAndWidth Sample.left_display Sample.right_display
         200 (gfx.mkRect 500 100 50 20) false)
  + snd (CalculatePopupXAndWidth Sample.left_display Sample.right_display
           200 (gfx.mkRect 500 100 50 20) false)
    <= gfx.Size_width (display.GetSizeInPixel Sample.right_display)
       + gfx.x (display.bounds Sample.right_display).
Proof.
  apply (CalculatePopupXAndWidth_stays_on_screen
           Sample.left_display Sample.right_display 200
           (gfx.mkRect 500 100 50 20) false);
    by_evaluation.
Defined.

Lemma CalculatePopupXAndWidth_mirrored_alignment_witness :
  CalculatePopupXAndWidth Sample.screen Sample.screen 40 Sample.anchor false
    = (100, 40) /\
  CalculatePopupXAndWidth Sample.screen Sample.screen 40 Sample.anchor true
    = (110, 40).
Proof.
  apply (CalculatePopupXAndWidth_mirrored_alignment
           Sample.screen 40 Sample.anchor);
    by_evaluation.
Defined.

(** ** Further properties of the vertical placement *)

(** The locals of the vertical placement for an anchor inside one
    display. *)
Lemma vertical_locals_contained d e :
  Display_vertical_ok d ->
  gfx.Rect_ok e ->
  contained_vertically d e ->
  Vertical.top_growth_end d d e = gfx.y e /\
  Vertical.bottom_growth_start d d e = gfx.y e + gfx.height e /\
  Vertical.top_available d d e
    = gfx.y e + gfx.height e - gfx.y (display.bounds d) /\
  Vertical.bottom_available d d e
    = gfx.y (display.bounds d) + gfx.Size_height (display.GetSizeInPixel d)
      - gfx.y e.
Proof.
  intros (Ht & Hh & Hb) (_ & Hy & _ & Heh) (Hc1 & Hc2).
  assert (E1 : Vertical.bottommost_display_y d
               = gfx.y (display.bounds d)
                 + gfx.Size_height (display.GetSizeInPixel d)).
  { unfold Vertical.bottommost_display_y, Int32.add.
    rewrite Z.add_comm. now apply Int32_wrap_small. }
  assert (E2 : gfx.bottom e = gfx.y e + gfx.height e).
  { unfold gfx.bottom, Int32.add. apply Int32_wrap_small. int_bounds. }
  unfold Vertical.top_available, Vertical.bottom_available,
    Vertical.bottom_growth_start, Vertical.top_growth_end,
    Vertical.topmost_display_y.
  rewrite E1, E2.
  set (t := gfx.y (display.bounds d)) in *.
  set (b := t + gfx.Size_height (display.GetSizeInPixel d)) in *.
  replace (Z.max t (Z.min b (gfx.y e))) with (gfx.y e) by lia.
  replace (Z.max t (Z.min b (gfx.y e + gfx.height e)))
    with (gfx.y e + gfx.height e) by lia.
  unfold Int32.sub.
  rewrite !Int32_wrap_small by (subst t b; int_bounds).
  auto.
Qed.

(** X4: with the anchor inside one display and the required height no
    more than the room between the anchor's bottom edge and the
    display's, the popup starts at the anchor's bottom edge and ends
    within the display. *)
Theorem CalculatePopupYAndHeight_fits_below :
  forall (d : display.Display) (required : Z) (e : gfx.Rect),
    Display_vertical_ok d ->
    gfx.Rect_ok e ->
    contained_vertically d e ->
    required <= gfx.y (display.bounds d)
                + gfx.Size_height (display.GetSizeInPixel d)
                - (gfx.y e + gfx.height e) ->
    CalculatePopupYAndHeight d d required e
      = (gfx.y e + gfx.height e, required) /\
    fst (CalculatePopupYAndHeight d d required e)
    + snd (CalculatePopupYAndHeight d d required e)
      <= gfx.y (display.bounds d)
         + gfx.Size_height (display.GetSizeInPixel d).
Proof.
  intros d required e Hd He Hc Hroom.
  destruct (vertical_locals_contained d e Hd He Hc) as (Et & Eb & Eta & Eba).
  destruct He as (_ & _ & _ & Heh).
  rewrite CalculatePopupYAndHeight_locals.
  unfold Vertical.below, Vertical.above. rewrite Eba, Eta, Eb.
  destruct ((_ >=? required) || _) eqn:E; cbn [fst snd].
  - split; [reflexivity | lia].
  - apply orb_false_iff in E. lia.
Qed.

(** X5: the space below is measured from the anchor's top edge.  With
    the anchor inside one display and a required height that fits
    between the anchor's top edge and the display's bottom but not
    between the anchor's bottom edge and the display's bottom, the popup
    is still placed below the anchor and ends beyond the display. *)
Theorem CalculatePopupYAndHeight_below_overflows :
  forall (d : display.Display) (required : Z) (e : gfx.Rect),
    Display_vertical_ok d ->
    gfx.Rect_ok e ->
    contained_vertically d e ->
    gfx.y (display.bounds d) + gfx.Size_height (display.GetSizeInPixel d)
      - (gfx.y e + gfx.height e) < required ->
    required <= gfx.y (display.bounds d)
                + gfx.Size_height (display.GetSizeInPixel d) - gfx.y e ->
    CalculatePopupYAndHeight d d required e
      = (gfx.y e + gfx.height e, required) /\
    gfx.y (display.bounds d) + gfx.Size_height (display.GetSizeInPixel d)
      < fst (CalculatePopupYAndHeight d d required e)
        + snd (CalculatePopupYAndHeight d d required e).
Proof.
  intros d required e Hd He Hc Hlow Hhigh.
  destruct (vertical_locals_contained d e Hd He Hc) as (Et & Eb & Eta & Eba).
  rewrite CalculatePopupYAndHeight_locals.
  unfold Vertical.below, Vertical.above. rewrite Eba, Eta, Eb.
  destruct ((_ >=? required) || _) eqn:E; cbn [fst snd].
  - split; [reflexivity | lia].
  - apply orb_false_iff in E. lia.
Qed.

(** X6: with the anchor inside one display, the placement falls back to
    above the anchor when the space from the anchor's top edge to the
    display's bottom is smaller than the required height and smaller
    than the space from the display's top to the anchor's bottom edge;
    the popup then ends at the anchor's top edge. *)
Theorem CalculatePopupYAndHeight_above_ends_at_anchor :
  forall (d : display.Display) (required : Z) (e : gfx.Rect),
    Display_vertical_ok d ->
    gfx.Rect_ok e ->
    contained_vertically d e ->
    Int32.in_range (gfx.y e - required) ->
    gfx.y (display.bounds d) + gfx.Size_height (display.GetSizeInPixel d)
      - gfx.y e < required ->
    gfx.y (display.bounds d) + gfx.Size_height (display.GetSizeInPixel d)
      - gfx.y e < gfx.y e + gfx.height e - gfx.y (display.bounds d) ->
    CalculatePopupYAndHeight d d required e = (gfx.y e - required, required)
    /\ fst (CalculatePopupYAndHeight d d required e)
       + snd (CalculatePopupYAndHeight d d required e) = gfx.y e.
Proof.
  intros d required e Hd He Hc Hr Hlow Hless.
  destruct (vertical_locals_contained d e Hd He Hc) as (Et & Eb & Eta & Eba).
  rewrite CalculatePopupYAndHeight_locals.
  unfold Vertical.below, Vertical.above. rewrite Eba, Eta, Et.
  destruct ((_ >=? required) || _) eqn:E; cbn [fst snd].
  - apply orb_true_iff in E. lia.
  - unfold Int32.sub. rewrite Int32_wrap_small by assumption.
    split; [reflexivity | lia].
Qed.

Lemma CalculatePopupYAndHeight_fits_below_witness :
  CalculatePopupYAndHeight Sample.screen Sample.screen 74 Sample.anchor
    = (120, 74) /\
  fst (CalculatePopupYAndHeight Sample.screen Sample.screen 74 Sample.anchor)
  + snd (CalculatePopupYAndHeight Sample.screen Sample.screen 74
                                  Sample.anchor)
    <= gfx.y (display.bounds Sample.screen)
       + gfx.Size_height (display.GetSizeInPixel Sample.screen).
Proof.
  apply (CalculatePopupYAndHeight_fits_below Sample.screen 74 Sample.anchor);
    by_evaluation.
Defined.

Lemma CalculatePopupYAndHeight_below_overflows_witness :
  CalculatePopupYAndHeight Sample.screen Sample.screen 40
                           (gfx.mkRect 100 1040 50 30) = (1070, 40) /\
  gfx.y (display.bounds Sample.screen)
  + gfx.Size_height (display.GetSizeInPixel Sample.screen)
    < fst (CalculatePopupYAndHeight Sample.screen Sample.screen 40
                                    (gfx.mkRect 100 1040 50 30))
      + snd (CalculatePopupYAndHeight Sample.screen Sample.screen 40
                                      (gfx.mkRect 100 1040 50 30)).
Proof.
  apply (CalculatePopupYAndHeight_below_overflows
           Sample.screen 40 (gfx.mkRect 100 1040 50 30));
    by_evaluation.
Defined.

Lemma CalculatePopupYAndHeight_above_ends_at_anchor_witness :
  CalculatePopupYAndHeight Sample.screen Sample.screen 200
                           (gfx.mkRect 100 1000 50 30) = (800, 200) /\
  fst (CalculatePopupYAndHeight Sample.screen Sample.screen 200
                                (gfx.mkRect 100 1000 50 30))
  + snd (CalculatePopupYAndHeight Sample.screen Sample.screen 200
                                  (gfx.mkRect 100 1000 50 30))
  = 1000.
Proof.
  apply (CalculatePopupYAndHeight_above_ends_at_anchor
           Sample.screen 200 (gfx.mkRect 100 1000 50 30));
    by_evaluation.
Defined.

(** ** The desired width as the widest row *)

Lemma vector_at_nth {A : Type} (v : list A) (n : Z) (a : A) :
  0 <= n -> nth_error v (Z.to_nat n) = Some a -> vector.at_ v n = Ok a.
Proof.
  intros Hn Ha. unfold vector.at_.
  assert (Hlt : (Z.to_nat n < length v)%nat)
    by (apply nth_error_Some; congruence).
  destruct (n <? vector.size v) eqn:E.
  - now rewrite Ha.
  - unfold vector.size in E. lia.
Qed.

Lemma skipn_cons_nth {A : Type} (l : list A) :
  forall (n : nat) (a : A) (t : list A),
    skipn n l = a :: t -> nth_error l n = Some a /\ skipn (S n) l = t.
Proof.
  induction l as [|x l IH]; intros n a t H.
  - destruct n; discriminate.
  - destruct n as [|n].
    + injection H as -> ->. split; reflexivity.
    + cbn [skipn] in H. destruct (IH n a t H) as (H1 & H2). split; assumption.
Qed.

Lemma index_conversions (i : Z) :
  0 <= i <= Int32.max_int ->
  SizeT.to_int i = i /\ SizeT.of_int i = i.
Proof.
  intros Hi. split.
  - unfold SizeT.to_int. apply Int32_wrap_small. int_bounds.
  - apply SizeT_of_int_nonneg. unfold Int32.max_int, SizeT.modulus in *. lia.
Qed.

Section DesiredWidth.

Context {constants : Constants} {toolkit : Toolkit}.
Variable p : AutofillPopup.

(** One turn of the loop over a row that both lists hold. *)
Lemma GetDesiredPopupWidth_loop_step (remaining : nat) (i w : Z)
    (value label : string16) :
  0 <= i <= Int32.max_int ->
  nth_error (values_ p) (Z.to_nat i) = Some value ->
  nth_error (labels_ p) (Z.to_nat i) = Some label ->
  GetDesiredPopupWidth_loop p (S remaining) i w
  = GetDesiredPopupWidth_loop p remaining (i + 1)
      (widen p w (value, label)).
Proof.
  intros Hi Hv Hl.
  destruct (index_conversions i Hi) as (E1 & E2).
  cbn [GetDesiredPopupWidth_loop].
  unfold GetValueAt, GetLabelAt. rewrite E1, E2.
  rewrite (vector_at_nth _ _ _ (proj1 Hi) Hv).
  rewrite (vector_at_nth _ _ _ (proj1 Hi) Hl).
  reflexivity.
Qed.

Lemma GetDesiredPopupWidth_loop_closed :
  forall (vs ls : list string16) (i w : Z),
    0 <= i ->
    skipn (Z.to_nat i) (values_ p) = vs ->
    skipn (Z.to_nat i) (labels_ p) = ls ->
    (length vs <= length ls)%nat ->
    i + Z.of_nat (length vs) <= Int32.max_int + 1 ->
    GetDesiredPopupWidth_loop p (length vs) i w
    = Ok (fold_left (widen p) (combine vs ls) w).
Proof.
  induction vs as [|v vs IH]; intros ls i w Hi Hvs Hls Hlen Hmax.
  - reflexivity.
  - destruct ls as [|l ls]; [cbn in Hlen; lia|].
    destruct (skipn_cons_nth _ _ _ _ Hvs) as (Hv & Hvs').
    destruct (skipn_cons_nth _ _ _ _ Hls) as (Hl & Hls').
    cbn [length] in *.
    rewrite (GetDesiredPopupWidth_loop_step _ _ _ v l) by (auto; lia).
    cbn [combine fold_left].
    apply IH.
    + lia.
    + rewrite Z2Nat.inj_add by lia. rewrite Nat.add_1_r. exact Hvs'.
    + rewrite Z2Nat.inj_add by lia. rewrite Nat.add_1_r. exact Hls'.
    + lia.
    + lia.
Qed.

Lemma GetDesiredPopupWidth_closed :
  vector.size (values_ p) <= vector.size (labels_ p) ->
  vector.size (values_ p) <= Int32.max_int + 1 ->
  GetDesiredPopupWidth p = Ok (widest_row p).
Proof.
  intros Hl Hmax. unfold GetDesiredPopupWidth, widest_row, vector.size in *.
  apply GetDesiredPopupWidth_loop_closed; try reflexivity; lia.
Qed.

(** Past the last label the loop stops with the error of [at]. *)
Lemma GetDesiredPopupWidth_loop_mismatch :
  vector.size (labels_ p) < vector.size (values_ p) ->
  vector.size (values_ p) <= Int32.max_int + 1 ->
  forall (remaining : nat) (i w : Z),
    0 <= i <= vector.size (labels_ p) ->
    i + Z.of_nat remaining = vector.size (values_ p) ->
    GetDesiredPopupWidth_loop p remaining i w = Err out_of_range.
Proof.
  intros Hshort Hmax.
  induction remaining as [|k IH]; intros i w Hi Hsum; [lia|].
  destruct (index_conversions i ltac:(lia)) as (E1 & E2).
  destruct (vector_at_in_bounds (values_ p) i ltac:(lia)) as (v & Hv & Ev).
  destruct (Z_lt_dec i (vector.size (labels_ p))) as [Hin|Hout].
  - destruct (vector_at_in_bounds (labels_ p) i ltac:(lia)) as (l & Hl & El).
    rewrite (GetDesiredPopupWidth_loop_step _ _ _ v l) by (auto; lia).
    apply IH; lia.
  - cbn [GetDesiredPopupWidth_loop].
    unfold GetValueAt, GetLabelAt. rewrite E1, E2, Ev.
    rewrite (vector_at_out_of_bounds (labels_ p) i) by lia.
    reflexivity.
Qed.

Lemma GetDesiredPopupWidth_mismatch :
  vector.size (labels_ p) < vector.size (values_ p) ->
  vector.size (values_ p) <= Int32.max_int + 1 ->
  GetDesiredPopupWidth p = Err out_of_range.
Proof.
  intros Hshort Hmax. unfold GetDesiredPopupWidth.
  apply GetDesiredPopupWidth_loop_mismatch; try assumption.
  - unfold vector.size. lia.
  - reflexivity.
Qed.

Lemma fold_widen_ge_init (rows : list (string16 * string16)) :
  forall w, w <= fold_left (widen p) rows w.
Proof.
  induction rows as [|r rows IH]; intros w; cbn [fold_left]; [lia|].
  specialize (IH (widen p w r)). unfold widen in *. lia.
Qed.

Lemma fold_widen_ge_row (rows : list (string16 * string16)) :
  forall w r, In r rows ->
              row_size p (fst r) (snd r) <= fold_left (widen p) rows w.
Proof.
  induction rows as [|r0 rows IH]; intros w r Hin; [contradiction|].
  cbn [fold_left]. destruct Hin as [->|Hin].
  - pose proof (fold_widen_ge_init rows (widen p w r)) as H.
    assert (H0 : row_size p (fst r) (snd r) <= widen p w r)
      by (unfold widen; lia).
    lia.
  - now apply IH.
Qed.

End DesiredWidth.

Lemma nth_error_combine_In {A B : Type} (vs : list A) :
  forall (ls : list B) (j : nat) (v : A) (l : B),
    nth_error vs j = Some v -> nth_error ls j = Some l ->
    In (v, l) (combine vs ls).
Proof.
  induction vs as [|v0 vs IH]; intros ls j v l Hv Hl.
  - destruct j; discriminate.
  - destruct ls as [|l0 ls]; [destruct j; discriminate|].
    destruct j as [|j]; cbn in *.
    + left. congruence.
    + right. eapply IH; eassumption.
Qed.

(** X7: with a label for every value, the desired width is the largest
    of the anchor's width and the sizes of the rows, a row's size being
    the end padding, twice the border, the two text widths and, for a
    non-empty label, the name padding and a second end padding. *)
Theorem GetDesiredPopupWidth_is_widest_row :
  forall {constants : Constants} {toolkit : Toolkit} (p : AutofillPopup),
    vector.size (values_ p) <= vector.size (labels_ p) ->
    vector.size (values_ p) <= Int32.max_int + 1 ->
    GetDesiredPopupWidth p = Ok (widest_row p).
Proof.
  intros constants toolkit p. apply GetDesiredPopupWidth_closed.
Qed.

Lemma GetDesiredPopupWidth_is_widest_row_witness :
  @GetDesiredPopupWidth Sample.constants Sample.toolkit
    (Sample.popup Sample.three_values Sample.three_labels)
  = Ok (@widest_row Sample.constants Sample.toolkit
          (Sample.popup Sample.three_values Sample.three_labels))
  /\ @widest_row Sample.constants Sample.toolkit
       (Sample.popup Sample.three_values Sample.three_labels) = 54.
Proof.
  split; [|reflexivity].
  apply (@GetDesiredPopupWidth_is_widest_row Sample.constants Sample.toolkit
           (Sample.popup Sample.three_values Sample.three_labels));
    by_evaluation.
Defined.

(** X8: with fewer labels than values the desired width is not
    computed: the access to the missing label signals the out-of-range
    error, and [UpdatePopupBounds] passes it on without storing
    bounds. *)
Theorem GetDesiredPopupWidth_label_missing :
  forall {constants : Constants} {toolkit : Toolkit} (p : AutofillPopup),
    vector.size (labels_ p) < vector.size (values_ p) ->
    vector.size (values_ p) <= Int32.max_int + 1 ->
    GetDesiredPopupWidth p = Err out_of_range /\
    (forall parent : View,
        parent_ p = Some parent -> UpdatePopupBounds p = Err out_of_range).
Proof.
  intros constants toolkit p Hshort Hmax.
  pose proof (GetDesiredPopupWidth_mismatch p Hshort Hmax) as Hw.
  split; [exact Hw|].
  intros parent Hp. unfold UpdatePopupBounds. rewrite Hp, Hw. reflexivity.
Qed.

Lemma GetDesiredPopupWidth_label_missing_witness :
  @GetDesiredPopupWidth Sample.constants Sample.toolkit
    (Sample.popup Sample.three_values [[120%N]])
  = Err out_of_range /\
  (forall parent : @View Sample.toolkit,
      parent_ (Sample.popup Sample.three_values [[120%N]]) = Some parent ->
      @UpdatePopupBounds Sample.constants Sample.toolkit
        (Sample.popup Sample.three_values [[120%N]])
      = Err out_of_range).
Proof.
  apply (@GetDesiredPopupWidth_label_missing Sample.constants Sample.toolkit
           (Sample.popup Sample.three_values [[120%N]]));
    by_evaluation.
Defined.

(** X9: a desired width that is computed is at least the anchor's width
    and at least the size of every row. *)
Theorem GetDesiredPopupWidth_covers_anchor_and_rows :
  forall {constants : Constants} {toolkit : Toolkit}
         (p : AutofillPopup) (w : Z),
    vector.size (values_ p) <= Int32.max_int + 1 ->
    GetDesiredPopupWidth p = Ok w ->
    gfx.width (element_bounds_ p) <= w /\
    (forall (j : nat) (value label : string16),
        nth_error (values_ p) j = Some value ->
        nth_error (labels_ p) j = Some label ->
        row_size p value label <= w).
Proof.
  intros constants toolkit p w Hmax Hrun.
  destruct (Z_lt_dec (vector.size (labels_ p)) (vector.size (values_ p)))
    as [Hshort|Hlong].
  - rewrite (GetDesiredPopupWidth_mismatch p Hshort Hmax) in Hrun.
    discriminate.
  - rewrite (GetDesiredPopupWidth_closed p) in Hrun by lia.
    injection Hrun as <-. unfold widest_row. split.
    + apply fold_widen_ge_init.
    + intros j value label Hv Hl.
      apply (fold_widen_ge_row p _ _ (value, label)).
      eapply nth_error_combine_In; eassumption.
Qed.

Lemma GetDesiredPopupWidth_covers_anchor_and_rows_witness :
  gfx.width (element_bounds_ (Sample.popup Sample.three_values
                                           Sample.three_labels)) <= 54 /\
  (forall (j : nat) (value label : string16),
      nth_error (values_ (Sample.popup Sample.three_values
                                       Sample.three_labels)) j = Some value ->
      nth_error (labels_ (Sample.popup Sample.three_values
                                       Sample.three_labels)) j = Some label ->
      @row_size Sample.constants Sample.toolkit
        (Sample.popup Sample.three_values Sample.three_labels) value label
      <= 54).
Proof.
  apply (@GetDesiredPopupWidth_covers_anchor_and_rows
           Sample.constants Sample.toolkit
           (Sample.popup Sample.three_values Sample.three_labels) 54);
    [by_evaluation | reflexivity].
Defined.

(** ** Rows and positions *)

Section Scan.

Context {constants : Constants} {toolkit : Toolkit}.

Lemma first_row_reaching_range (y : Z) :
  forall (remaining : nat) (i r : Z),
    first_row_reaching remaining i y = Some r ->
    i <= r < i + Z.of_nat remaining.
Proof.
  induction remaining as [|k IH]; intros i r H; [discriminate|].
  cbn [first_row_reaching] in H.
  destruct (y <=? kPopupBorderThickness + (i + 1) * kRowHeight).
  - injection H as <-. lia.
  - apply IH in H. lia.
Qed.

Lemma first_row_reaching_some (y r : Z) :
  forall (remaining : nat) (i : Z),
    i <= r < i + Z.of_nat remaining ->
    (forall j, i <= j < r ->
               kPopupBorderThickness + (j + 1) * kRowHeight < y) ->
    y <= kPopupBorderThickness + (r + 1) * kRowHeight ->
    first_row_reaching remaining i y = Some r.
Proof.
  induction remaining as [|k IH]; intros i Hr Hbefore Hat; [lia|].
  cbn [first_row_reaching].
  destruct (y <=? kPopupBorderThickness + (i + 1) * kRowHeight) eqn:E.
  - destruct (Z.eq_dec i r) as [->|Hne]; [reflexivity|].
    specialize (Hbefore i ltac:(lia)). lia.
  - apply IH.
    + destruct (Z.eq_dec i r) as [->|Hne]; lia.
    + intros j Hj. apply Hbefore. lia.
    + exact Hat.
Qed.

Lemma scan_result_range (y : Z) (remaining : nat) (i : Z) :
  (0 < remaining)%nat ->
  i <= scan_result remaining i y <= i + Z.of_nat remaining - 1.
Proof.
  intros Hpos. unfold scan_result.
  destruct (first_row_reaching remaining i y) as [r|] eqn:E.
  - apply first_row_reaching_range in E. lia.
  - lia.
Qed.

Lemma scan_result_monotone (y1 y2 : Z) :
  y1 <= y2 ->
  forall (remaining : nat) (i : Z),
    scan_result remaining i y1 <= scan_result remaining i y2.
Proof.
  intros Hy. induction remaining as [|k IH]; intros i.
  - unfold scan_result. cbn. lia.
  - pose proof (scan_result_range y2 (S k) i ltac:(lia)) as Hr2.
    specialize (IH (i + 1)).
    unfold scan_result in *. cbn [first_row_reaching] in *.
    destruct (y1 <=? kPopupBorderThickness + (i + 1) * kRowHeight) eqn:E1;
      destruct (y2 <=? kPopupBorderThickness + (i + 1) * kRowHeight) eqn:E2;
      try lia.
    replace (i + Z.of_nat (S k) - 1) with (i + 1 + Z.of_nat k - 1) by lia.
    exact IH.
Qed.

Variable p : AutofillPopup.

Hypothesis border_is_int : Int32.in_range kPopupBorderThickness.
Hypothesis bottom_is_int :
  Int32.in_range (kPopupBorderThickness
                  + vector.size (values_ p) * kRowHeight).
Hypothesis count_is_int : vector.size (values_ p) <= Int32.max_int.

Lemma LineFromY_is_scan_result (y : Z) :
  LineFromY p y = scan_result (length (values_ p)) 0 y.
Proof.
  unfold LineFromY, scan_result.
  replace kPopupBorderThickness
    with (kPopupBorderThickness + 0 * kRowHeight) at 1 by ring.
  rewrite (LineFromY_loop_scan p y border_is_int bottom_is_int count_is_int)
    by (unfold vector.size; lia).
  unfold vector.size. now destruct (first_row_reaching _ _ _).
Qed.

Lemma GetRowBounds_top (q : AutofillPopup) (i : Z) :
  0 <= i <= vector.size (values_ p) ->
  gfx.y (GetRowBounds q i) = kPopupBorderThickness + i * kRowHeight.
Proof.
  intros Hi. unfold GetRowBounds, gfx.MakeRect. cbn [gfx.y].
  apply Int32_add_mul_exact.
  now apply (partial_height_in_range _ _ (vector.size (values_ p))).
Qed.

Lemma GetRowBounds_height (q : AutofillPopup) (i : Z) :
  0 <= kRowHeight ->
  0 <= i < vector.size (values_ p) ->
  gfx.height (GetRowBounds q i) = kRowHeight.
Proof.
  intros Hrh Hi. unfold GetRowBounds, gfx.MakeRect. cbn [gfx.height].
  rewrite Int32_add_mul_exact
    by (apply (partial_height_in_range _ _ (vector.size (values_ p)));
        try assumption; lia).
  apply GetClampedValue_exact; [assumption|].
  pose proof (partial_height_in_range kPopupBorderThickness kRowHeight
                (vector.size (values_ p)) (i + 1)
                border_is_int bottom_is_int ltac:(lia)) as H.
  unfold Int32.in_range in H. lia.
Qed.

Lemma LineFromY_within_row (i y : Z) :
  0 < kRowHeight ->
  0 <= i < vector.size (values_ p) ->
  kPopupBorderThickness + i * kRowHeight < y
    <= kPopupBorderThickness + (i + 1) * kRowHeight ->
  LineFromY p y = i.
Proof.
  intros Hrh Hi Hy. rewrite LineFromY_is_scan_result. unfold scan_result.
  rewrite (first_row_reaching_some y i); [reflexivity | | | lia].
  - unfold vector.size in Hi. lia.
  - intros j Hj. nia.
Qed.

End Scan.

(** X10: a position inside the bounds of row [i], below its top edge and
    down to its bottom edge, is mapped back to [i]. *)
Theorem LineFromY_of_row_bounds :
  forall {constants : Constants} {toolkit : Toolkit}
         (p : AutofillPopup) (i y : Z),
    Int32.in_range kPopupBorderThickness ->
    Int32.in_range (kPopupBorderThickness
                    + vector.size (values_ p) * kRowHeight) ->
    vector.size (values_ p) <= Int32.max_int ->
    0 < kRowHeight ->
    0 <= i < vector.size (values_ p) ->
    gfx.y (GetRowBounds p i) < y
      <= gfx.y (GetRowBounds p i) + gfx.height (GetRowBounds p i) ->
    LineFromY p y = i.
Proof.
  intros constants toolkit p i y Hb Hn Hmax Hrh Hi Hy.
  rewrite (GetRowBounds_top p Hb Hn p i) in Hy by lia.
  rewrite (GetRowBounds_height p Hb Hn p i) in Hy by lia.
  apply LineFromY_within_row; try assumption. lia.
Qed.

Lemma LineFromY_of_row_bounds_witness :
  @LineFromY Sample.constants Sample.toolkit
    (Sample.popup Sample.three_values Sample.three_labels) 40 = 1.
Proof.
  apply (@LineFromY_of_row_bounds Sample.constants Sample.toolkit
           (Sample.popup Sample.three_values Sample.three_labels) 1 40);
    by_evaluation.
Defined.

(** X11: the edge between two rows belongs to the upper one: the top
    edge of row [i] is mapped to row [i - 1], that of row 0 to row 0,
    and the bottom edge of the last row to the last row. *)
Theorem LineFromY_of_row_top :
  forall {constants : Constants} {toolkit : Toolkit}
         (p : AutofillPopup) (i : Z),
    Int32.in_range kPopupBorderThickness ->
    Int32.in_range (kPopupBorderThickness
                    + vector.size (values_ p) * kRowHeight) ->
    vector.size (values_ p) <= Int32.max_int ->
    0 < kRowHeight ->
    0 < vector.size (values_ p) ->
    0 <= i <= vector.size (values_ p) ->
    LineFromY p (gfx.y (GetRowBounds p i)) = Z.max 0 (i - 1).
Proof.
  intros constants toolkit p i Hb Hn Hmax Hrh Hne Hi.
  rewrite (GetRowBounds_top p Hb Hn p i) by lia.
  destruct (Z.eq_dec i 0) as [->|Hpos].
  - rewrite (LineFromY_is_scan_result p Hb Hn Hmax). unfold scan_result.
    rewrite (first_row_reaching_some _ 0); [reflexivity | | | lia].
    + unfold vector.size in Hne. lia.
    + intros j Hj. lia.
  - replace (Z.max 0 (i - 1)) with (i - 1) by lia.
    apply LineFromY_within_row; try assumption; lia.
Qed.

Lemma LineFromY_of_row_top_witness :
  @LineFromY Sample.constants Sample.toolkit
    (Sample.popup Sample.three_values Sample.three_labels)
    (gfx.y (@GetRowBounds Sample.constants Sample.toolkit
              (Sample.popup Sample.three_values Sample.three_labels) 2))
  = Z.max 0 (2 - 1).
Proof.
  apply (@LineFromY_of_row_top Sample.constants Sample.toolkit
           (Sample.popup Sample.three_values Sample.three_labels) 2);
    by_evaluation.
Defined.

(** X12: for a non-empty list every position, also one above or below
    all rows, is mapped to a valid index, so that reading the value of
    the row under a position never signals the out-of-range error. *)
Theorem LineFromY_is_valid_index :
  forall {constants : Constants} {toolkit : Toolkit}
         (p : AutofillPopup) (y : Z),
    Int32.in_range kPopupBorderThickness ->
    Int32.in_range (kPopupBorderThickness
                    + vector.size (values_ p) * kRowHeight) ->
    vector.size (values_ p) <= Int32.max_int ->
    values_ p <> [] ->
    0 <= LineFromY p y < vector.size (values_ p) /\
    exists s, nth_error (values_ p) (Z.to_nat (LineFromY p y)) = Some s
              /\ GetValueAt p (LineFromY p y) = Ok s.
Proof.
  intros constants toolkit p y Hb Hn Hmax Hne.
  assert (Hpos : (0 < length (values_ p))%nat)
    by (destruct (values_ p); [congruence | cbn; lia]).
  pose proof (scan_result_range y (length (values_ p)) 0 Hpos) as Hr.
  rewrite <- (LineFromY_is_scan_result p Hb Hn Hmax) in Hr.
  assert (Hidx : 0 <= LineFromY p y < vector.size (values_ p))
    by (unfold vector.size; lia).
  split; [exact Hidx|].
  unfold GetValueAt.
  assert (Hint : 0 <= LineFromY p y <= Int32.max_int) by lia.
  destruct (index_conversions (LineFromY p y) Hint) as (_ & ->).
  now apply vector_at_in_bounds.
Qed.

Lemma LineFromY_is_valid_index_witness :
  0 <= @LineFromY Sample.constants Sample.toolkit
         (Sample.popup Sample.three_values Sample.three_labels) 5000
    < vector.size (values_ (Sample.popup Sample.three_values
                                         Sample.three_labels)) /\
  exists s,
    nth_error (values_ (Sample.popup Sample.three_values Sample.three_labels))
      (Z.to_nat (@LineFromY Sample.constants Sample.toolkit
                   (Sample.popup Sample.three_values Sample.three_labels)
                   5000)) = Some s
    /\ @GetValueAt Sample.toolkit
         (Sample.popup Sample.three_values Sample.three_labels)
         (@LineFromY Sample.constants Sample.toolkit
            (Sample.popup Sample.three_values Sample.three_labels) 5000)
       = Ok s.
Proof.
  apply (@LineFromY_is_valid_index Sample.constants Sample.toolkit
           (Sample.popup Sample.three_values Sample.three_labels) 5000);
    by_evaluation.
Defined.

(** X13: the row index never decreases as the position moves down. *)
Theorem LineFromY_monotone :
  forall {constants : Constants} {toolkit : Toolkit}
         (p : AutofillPopup) (y1 y2 : Z),
    Int32.in_range kPopupBorderThickness ->
    Int32.in_range (kPopupBorderThickness
                    + vector.size (values_ p) * kRowHeight) ->
    vector.size (values_ p) <= Int32.max_int ->
    y1 <= y2 ->
    LineFromY p y1 <= LineFromY p y2.
Proof.
  intros constants toolkit p y1 y2 Hb Hn Hmax Hy.
  rewrite !(LineFromY_is_scan_result p Hb Hn Hmax).
  now apply scan_result_monotone.
Qed.

Lemma LineFromY_monotone_witness :
  @LineFromY Sample.constants Sample.toolkit
    (Sample.popup Sample.three_values Sample.three_labels) 10
  <= @LineFromY Sample.constants Sample.toolkit
       (Sample.popup Sample.three_values Sample.three_labels) 60.
Proof.
  apply (@LineFromY_monotone Sample.constants Sample.toolkit
           (Sample.popup Sample.three_values Sample.three_labels) 10 60);
    by_evaluation.
Defined.

(** ** Recomputed bounds *)

Section Recompute.

Context {constants : Constants} {toolkit : Toolkit}.

(** The previous bounds take no part in the desired width. *)
Lemma GetDesiredPopupWidth_loop_ignores_bounds
    (p : AutofillPopup) (r : gfx.Rect) :
  forall (remaining : nat) (i w : Z),
    GetDesiredPopupWidth_loop (set_popup_bounds_ p r) remaining i w
    = GetDesiredPopupWidth_loop p remaining i w.
Proof.
  induction remaining as [|k IH]; intros i w; [reflexivity|].
  cbn [GetDesiredPopupWidth_loop].
  change (GetValueAt (set_popup_bounds_ p r)) with (GetValueAt p).
  change (GetLabelAt (set_popup_bounds_ p r)) with (GetLabelAt p).
  destruct (GetValueAt p (SizeT.to_int i)) as [v|]; [|reflexivity].
  destruct (GetLabelAt p (SizeT.to_int i)) as [l|]; [|reflexivity].
  cbn [bind]. apply IH.
Qed.

Lemma bind_ext {A B : Type} (r : result A) (f g : A -> result B) :
  (forall a, f a = g a) -> bind r f = bind r g.
Proof. intros H. destruct r; [apply H | reflexivity]. Qed.

Lemma UpdatePopupBounds_unfold (p : AutofillPopup) :
  UpdatePopupBounds p
  = match parent_ p with
    | None => Err dcheck_failed
    | Some parent =>
        desired_width <- GetDesiredPopupWidth p ;;
        Ok (set_popup_bounds_ p (stored_bounds p parent desired_width))
    end.
Proof.
  unfold UpdatePopupBounds, stored_bounds, top_left_display,
    bottom_right_display, screen_bounds.
  cbv zeta. reflexivity.
Qed.

Lemma stored_bounds_ignores_bounds (p : AutofillPopup) (r : gfx.Rect)
    (parent : View) (dw : Z) :
  stored_bounds (set_popup_bounds_ p r) parent dw = stored_bounds p parent dw.
Proof.
  unfold stored_bounds, top_left_display, bottom_right_display,
    screen_bounds, GetDesiredPopupHeight.
  reflexivity.
Qed.

Lemma UpdatePopupBounds_ignores_bounds (p : AutofillPopup) (r : gfx.Rect) :
  UpdatePopupBounds (set_popup_bounds_ p r) = UpdatePopupBounds p.
Proof.
  assert (Ew : GetDesiredPopupWidth (set_popup_bounds_ p r)
               = GetDesiredPopupWidth p)
    by apply GetDesiredPopupWidth_loop_ignores_bounds.
  rewrite !UpdatePopupBounds_unfold.
  change (parent_ (set_popup_bounds_ p r)) with (parent_ p).
  destruct (parent_ p) as [parent|]; [|reflexivity].
  rewrite Ew. apply bind_ext. intros dw.
  rewrite stored_bounds_ignores_bounds. reflexivity.
Qed.

Lemma UpdatePopupBounds_result_shape (p p' : AutofillPopup) :
  UpdatePopupBounds p = Ok p' ->
  exists r, p' = set_popup_bounds_ p r.
Proof.
  rewrite UpdatePopupBounds_unfold.
  destruct (parent_ p) as [parent|]; [|discriminate].
  destruct (GetDesiredPopupWidth p) as [dw|]; [|discriminate].
  cbn [bind]. intros H.
  exists (stored_bounds p parent dw). congruence.
Qed.





End Recompute.

(** X14: the bounds stored before take no part in the recomputation:
    whatever rectangle [popup_bounds_] held, the same bounds are
    stored, and recomputing a second time changes nothing. *)
Theorem UpdatePopupBounds_idempotent :
  forall {constants : Constants} {toolkit : Toolkit}
         (p p' : AutofillPopup),
    UpdatePopupBounds p = Ok p' ->
    UpdatePopupBounds p' = Ok p' /\
    (forall r : gfx.Rect, UpdatePopupBounds (set_popup_bounds_ p r) = Ok p').
Proof.
  intros constants toolkit p p' Hrun.
  destruct (UpdatePopupBounds_result_shape p p' Hrun) as (r & ->).
  split.
  - rewrite UpdatePopupBounds_ignores_bounds. exact Hrun.
  - intros r'. rewrite UpdatePopupBounds_ignores_bounds. exact Hrun.
Qed.



Lemma UpdatePopupBounds_idempotent_witness :
  @UpdatePopupBounds Sample.constants Sample.toolkit
    (set_popup_bounds_ (Sample.popup Sample.three_values Sample.three_labels)
                       (gfx.mkRect 100 120 54 74))
  = Ok (set_popup_bounds_
          (Sample.popup Sample.three_values Sample.three_labels)
          (gfx.mkRect 100 120 54 74)).
Proof.
  assert (Hrun : @UpdatePopupBounds Sample.constants Sample.toolkit
                   (Sample.popup Sample.three_values Sample.three_labels)
                 = Ok (set_popup_bounds_
                         (Sample.popup Sample.three_values Sample.three_labels)
                         (gfx.mkRect 100 120 54 74)))
    by (vm_compute; reflexivity).
  exact (proj1 (@UpdatePopupBounds_idempotent Sample.constants Sample.toolkit
                  _ _ Hrun)).
Defined.



(** ** Hiding *)

(** X17: after [Hide] the popup has neither parent nor view and its
    lists and bounds are as before; a second [Hide] makes no call and
    changes nothing; and a recomputation of the bounds is stopped by the
    check of the parent. *)
Theorem Hide_is_idempotent :
  forall {constants : Constants} {toolkit : Toolkit}
         {AutofillPopupView : Type} (o : @Object toolkit AutofillPopupView),
    parent_ (popup (fst (Hide o))) = None /\
    view_ (fst (Hide o)) = None /\
    Hide (fst (Hide o)) = (fst (Hide o), []) /\
    values_ (popup (fst (Hide o))) = values_ (popup o) /\
    labels_ (popup (fst (Hide o))) = labels_ (popup o) /\
    popup_bounds_ (popup (fst (Hide o))) = popup_bounds_ (popup o) /\
    UpdatePopupBounds (popup (fst (Hide o))) = Err dcheck_failed.
Proof.
  intros constants toolkit V [p v].
  unfold Hide. cbn [popup view_].
  destruct (parent_ p) as [parent|] eqn:Hp; destruct v as [view|];
    cbn [fst popup view_ set_parent_ parent_ values_ labels_ popup_bounds_];
    unfold UpdatePopupBounds;
    cbn [parent_ set_parent_]; rewrite ?Hp; auto 10.
Qed.
